(** * MeSHConditionsParser: the condenser (MeSHParser.py) and the expander
      (JSONMeSHAliasParser.py), embedded as Rocq functions.

    The two scripts are short effectful Python programs: they walk an
    ElementTree, print diagnostics, call [exit()], and write to an output
    object.  The embedding keeps that shape.  A computation of type [Py A]
    yields the trace of its visible effects (lines printed on stdout, values
    handed to [json.dump], rows handed to [DictWriter.writerow]) together with
    the way it ended: a value, an uncaught exception, or [SystemExit]. *)

From Stdlib Require Import List String Ascii Bool Arith NArith Lia.
Import ListNotations.
Open Scope string_scope.
Open Scope list_scope.

Set Implicit Arguments.

(** ** Text

    A [str] is modelled by the [string] of its UTF-8 bytes.  The scripts do
    three things with a text: they compare it with another text, they compare
    its first character with [C], and they lowercase it.  Equality and a
    first character [C] are read off the bytes.  [str.lower] is not: it is
    the parameter [lower] of everything that calls it, so that what is proved
    holds for what Python's [str.lower] does, and module [Unicode] below
    defines it on code points. *)

(** [str.lower] on a text of ASCII characters, used for the sample
    documents. *)
Definition lower_ascii (c : ascii) : ascii :=
  let n := nat_of_ascii c in
  if ((65 <=? n) && (n <=? 90))%nat then ascii_of_nat (n + 32) else c.

Fixpoint ascii_lower (s : string) : string :=
  match s with
  | EmptyString => EmptyString
  | String c s' => String (lower_ascii c) (ascii_lower s')
  end.

Definition is_ascii (c : ascii) : bool := (nat_of_ascii c <? 128)%nat.

(** The code points of a text of ASCII characters. *)
Fixpoint code_points (s : string) : list N :=
  match s with
  | EmptyString => []
  | String c s' => N_of_ascii c :: code_points s'
  end.

Fixpoint all_ascii (s : string) : bool :=
  match s with
  | EmptyString => true
  | String c s' => is_ascii c && all_ascii s'
  end.

(** ** ElementTree elements

    [xml.etree.ElementTree.Element]: a tag, the text before the first child
    ([None] when there is none) and the children in document order.  The
    attributes and the tail text are never read by the scripts. *)

#[warnings="-register-all"]
Inductive Element : Type :=
| mkElement (tag : string) (text : option string) (children : list Element).

Definition tag (e : Element) : string :=
  match e with mkElement t _ _ => t end.

Definition text (e : Element) : option string :=
  match e with mkElement _ t _ => t end.

Definition children (e : Element) : list Element :=
  match e with mkElement _ _ cs => cs end.

(** [Element.find(name)]: the first direct child with that tag, or [None]. *)
Definition find (e : Element) (name : string) : option Element :=
  List.find (fun c => String.eqb (tag c) name) (children e).

(** [Element.findall(name)]: all direct children with that tag, in document
    order. *)
Definition findall (e : Element) (name : string) : list Element :=
  List.filter (fun c => String.eqb (tag c) name) (children e).

(** ** Python dictionaries

    A [dict] keeps its keys in insertion order, and assigning to a key that is
    already there replaces the value where it stands. *)

Definition dict (V : Type) : Type := list (string * V).

Fixpoint dict_set {V : Type} (d : dict V) (k : string) (v : V) : dict V :=
  match d with
  | [] => [(k, v)]
  | (k', v') :: d' =>
      if String.eqb k k' then (k, v) :: d' else (k', v') :: dict_set d' k v
  end.

Fixpoint dict_get {V : Type} (d : dict V) (k : string) : option V :=
  match d with
  | [] => None
  | (k', v') :: d' => if String.eqb k k' then Some v' else dict_get d' k
  end.

Definition keys {V : Type} (d : dict V) : list string := map fst d.

(** Assignment of a sequence of pairs, first to last. *)
Definition insert_all {V : Type} (ps : list (string * V)) (d : dict V)
  : dict V :=
  fold_left (fun d p => dict_set d (fst p) (snd p)) ps d.

(** The keys of a dictionary are pairwise distinct. *)
Definition dict_wf {V : Type} (d : dict V) : Prop := NoDup (keys d).

(** ** Records and rows *)

(** The condensed record: [{"mesh_code": ..., "entry_terms": [...]}].
    [mesh_code] is whatever [.text] gave, which may be [None]. *)
Record Record_ : Type := mkRecord {
  mesh_code : option string;
  entry_terms : list string
}.

(** The row object given to the csv writer: [{"term": ..., "alias": ...}]. *)
Record AliasRow : Type := mkRow {
  alias : string;
  term : string
}.

(** ** Effects *)

Inductive exn : Type :=
| AttributeError   (* attribute access on [None] *)
| TypeError        (* subscript of [None] *)
| IndexError       (* subscript out of range *)
| KeyError         (* missing dictionary key *)
| ParseError.      (* [ET.parse] or [json.loads] could not read the input *)

Inductive event : Type :=
| Stdout (line : string)               (* [print(line)] *)
| JsonDump (data : dict Record_)       (* [json.dump(data, out, indent=4)] *)
| WriteRow (row : AliasRow).           (* [out.writerow(row)] *)

Inductive outcome (A : Type) : Type :=
| Return (a : A)
| Raise (e : exn)
| SystemExit.

Arguments Raise {A} e.
Arguments SystemExit {A}.

Definition Py (A : Type) : Type := (list event * outcome A)%type.

Definition ret {A : Type} (a : A) : Py A := ([], Return a).

Definition raise {A : Type} (e : exn) : Py A := ([], Raise e).

Definition exit {A : Type} : Py A := ([], SystemExit).

Definition emit (ev : event) : Py unit := ([ev], Return tt).

Definition print (line : string) : Py unit := emit (Stdout line).

Definition bind {A B : Type} (m : Py A) (f : A -> Py B) : Py B :=
  match m with
  | (tr, Return a) => let (tr', r) := f a in (tr ++ tr', r)
  | (tr, Raise e) => (tr, Raise e)
  | (tr, SystemExit) => (tr, SystemExit)
  end.

(** [try: body / except: handler] with a bare [except], which catches every
    exception, [SystemExit] included. *)
Definition try_except {A : Type} (body : Py A) (handler : Py A) : Py A :=
  match body with
  | (tr, Return a) => (tr, Return a)
  | (tr, _) => let (tr', r) := handler in (tr ++ tr', r)
  end.

Declare Scope py_scope.
Delimit Scope py_scope with py.
Notation "x <- m ;; k" := (bind m (fun x => k))
  (at level 61, m at next level, right associativity) : py_scope.
Notation "m ;;; k" := (bind m (fun _ => k))
  (at level 61, right associativity) : py_scope.

(** A [for] loop whose body updates the loop state [s]. *)
Fixpoint for_each {A S : Type} (xs : list A) (body : A -> S -> Py S) (s : S)
  : Py S :=
  match xs with
  | [] => ret s
  | x :: xs' => bind (body x s) (for_each xs' body)
  end.

(** Attribute access and subscripting on a value that may be [None]. *)
Definition dot_find (o : option Element) (name : string) : Py (option Element) :=
  match o with
  | Some e => ret (find e name)
  | None => raise AttributeError
  end.

Definition dot_findall (o : option Element) (name : string) : Py (list Element) :=
  match o with
  | Some e => ret (findall e name)
  | None => raise AttributeError
  end.

Definition dot_text (o : option Element) : Py (option string) :=
  match o with
  | Some e => ret (text e)
  | None => raise AttributeError
  end.

Definition dot_lower (lower : string -> string) (o : option string)
  : Py string :=
  match o with
  | Some s => ret (lower s)
  | None => raise AttributeError
  end.

(** [code[0]] *)
Definition subscript0 (o : option string) : Py ascii :=
  match o with
  | None => raise TypeError
  | Some EmptyString => raise IndexError
  | Some (String c _) => ret c
  end.

(** ** MeSHParser.py *)

Module MeSHParser.

Local Open Scope py_scope.

Definition term_error : string :=
  "Error: could not retrieve MeSH term of condition".
Definition code_error : string :=
  "Error: could not retrieve MeSH code of condition".
Definition entry_terms_error : string :=
  "Error: could not retrieve brand name data of drug".
Definition descriptor_error : string :=
  "Error: could not retrieve MeSH code of descriptor".
Definition read_error (inputFile : string) : string :=
  "Error: could not read in data from file " ++ inputFile.

Section WithLower.

(** What [str.lower] does. *)
Variable lower : string -> string.

Definition parseCondition (conditionData : Element) : Py (string * Record_) :=
  (* Obtain MeSH term *)
  term <- try_except
            (name <- dot_find (Some conditionData) "DescriptorName" ;;
             str <- dot_find name "String" ;;
             t <- dot_text str ;;
             dot_lower lower t)
            (print term_error ;;; exit) ;;
  (* Obtain MeSH code *)
  code <- try_except
            (lst <- dot_find (Some conditionData) "TreeNumberList" ;;
             num <- dot_find lst "TreeNumber" ;;
             dot_text num)
            (print code_error ;;; exit) ;;
  (* Obtain entry terms *)
  entryTerms <- try_except
            (conceptList <- dot_find (Some conditionData) "ConceptList" ;;
             concepts <- dot_findall conceptList "Concept" ;;
             for_each concepts (fun concept entryTerms =>
               termList <- dot_find (Some concept) "TermList" ;;
               terms <- dot_findall termList "Term" ;;
               for_each terms (fun termX entryTerms =>
                 str <- dot_find (Some termX) "String" ;;
                 t <- dot_text str ;;
                 termName <- dot_lower lower t ;;
                 ret (entryTerms ++ [termName])) entryTerms) [])
            (print entry_terms_error ;;; exit) ;;
  (* Create and populate condensed JSON representation *)
  ret (term, {| mesh_code := code; entry_terms := entryTerms |}).

(** The [try] block of [isCondition] either binds [code] ([inl]) or leaves
    the function through [return False] in the handler ([inr]). *)
Definition isCondition (descriptor : Element) : Py bool :=
  r <- try_except
         (lst <- dot_find (Some descriptor) "TreeNumberList" ;;
          num <- dot_find lst "TreeNumber" ;;
          code <- dot_text num ;;
          ret (inl code))
         (print descriptor_error ;;; ret (inr false)) ;;
  match r with
  | inr b => ret b
  | inl code => c <- subscript0 code ;; ret (Ascii.eqb c "C"%char)
  end.

(** Lines 126-129 of [parseFile]: the body of the loop over the root's
    children, which updates [data]. *)
Definition loop_body (descriptorRecord : Element) (data : dict Record_)
  : Py (dict Record_) :=
  selected <- isCondition descriptorRecord ;;
  if (selected : bool) then
    parsedCondition <- parseCondition descriptorRecord ;;
    ret (dict_set data (fst parsedCondition) (snd parsedCondition))
  else ret data.

(** Lines 123-129 of [parseFile]: [data = {}] and the loop that fills it. *)
Definition buildMapping (root : Element) : Py (dict Record_) :=
  for_each (children root) loop_body [].

(** [tree] is what [ET.parse(inputFile)] gives: the root element, or [None]
    when the call raises. *)
Definition parseFile (inputFile : string) (tree : option Element) : Py unit :=
  root <- try_except
            (match tree with
             | Some root => ret root
             | None => raise ParseError
             end)
            (print (read_error inputFile) ;;; exit) ;;
  data <- buildMapping root ;;
  emit (JsonDump data).

End WithLower.

End MeSHParser.

(** ** JSONMeSHAliasParser.py *)

Module JSONMeSHAliasParser.

Local Open Scope py_scope.

Definition FIELD_NAMES : list string := ["alias"; "term"].

Definition format_error (inputFile : string) : string :=
  "Error: there is something wrong with input formatting in " ++ inputFile.
Definition open_error (inputFile : string) : string :=
  "Error: could not open file " ++ inputFile.

(** [data[key]] *)
Definition subscript {V : Type} (d : dict V) (k : string) : Py V :=
  match dict_get d k with
  | Some v => ret v
  | None => raise KeyError
  end.

(** [DictWriter.writerow(row)] with [FIELD_NAMES]: the row's value for each
    field name, in that order (the writer's [restval] is the empty string). *)
Definition field (row : dict string) (name : string) : string :=
  match dict_get row name with
  | Some v => v
  | None => ""
  end.

Definition writerow (row : dict string) : Py unit :=
  emit (WriteRow {| alias := field row "alias"; term := field row "term" |}).

(** Lines 43-48 of [parseFile]: one [row] object per term, whose ["alias"]
    entry is overwritten before every [writerow]. *)
Definition expand (data : dict Record_) : Py unit :=
  for_each (keys data) (fun term _ =>
    let row := dict_set [] "term" term in
    record <- subscript data term ;;
    _ <- for_each (entry_terms record) (fun alias row =>
           let row := dict_set row "alias" alias in
           writerow row ;;; ret row) row ;;
    ret tt) tt.

(** What opening and reading [inputFile] and [json.loads] give. *)
Inductive input : Type :=
| CannotOpen                      (* [open] raises [OSError] *)
| CannotDecode                    (* [read] raises [UnicodeDecodeError] *)
| NotJson                         (* [json.loads] raises *)
| Json (data : dict Record_).

Definition parseFile (inputFile : string) (i : input) : Py unit :=
  match i with
  | CannotOpen => print (open_error inputFile) ;;; exit
  | CannotDecode => print (format_error inputFile) ;;; exit
  | NotJson => raise ParseError
  | Json data => expand data
  end.

End JSONMeSHAliasParser.

(** ** The paths the condenser follows, as plain functions *)

Fixpoint all_some {A : Type} (os : list (option A)) : option (list A) :=
  match os with
  | [] => Some []
  | Some a :: os' => option_map (cons a) (all_some os')
  | None :: _ => None
  end.

(** The text under [DescriptorName]/[String]. *)
Definition name_text (e : Element) : option string :=
  match find e "DescriptorName" with
  | Some name =>
      match find name "String" with
      | Some str => text str
      | None => None
      end
  | None => None
  end.

(** The first [TreeNumber] of the first [TreeNumberList]. *)
Definition code_leaf (e : Element) : option Element :=
  match find e "TreeNumberList" with
  | Some lst => find lst "TreeNumber"
  | None => None
  end.

(** The text under [String] of one [Term]. *)
Definition term_text (termX : Element) : option string :=
  match find termX "String" with
  | Some str => text str
  | None => None
  end.

(** The texts of the [Term]s of one [Concept], in document order. *)
Definition concept_texts (concept : Element) : option (list string) :=
  match find concept "TermList" with
  | Some termList => all_some (map term_text (findall termList "Term"))
  | None => None
  end.

(** The texts of all terms of all concepts, concept by concept. *)
Definition alias_texts (e : Element) : option (list string) :=
  match find e "ConceptList" with
  | Some conceptList =>
      option_map (@List.concat string)
        (all_some (map concept_texts (findall conceptList "Concept")))
  | None => None
  end.

(** The entry is one that [isCondition] accepts: its code leaf has a text
    that starts with [C]. *)
Definition selected (e : Element) : bool :=
  match code_leaf e with
  | Some leaf =>
      match text leaf with
      | Some (String c _) => Ascii.eqb c "C"%char
      | _ => false
      end
  | None => false
  end.

(** Every text of the tree has at least one character, as in a tree built by
    the XML parser, which gives [None] for an element without character
    data. *)
Fixpoint texts_nonempty (e : Element) : bool :=
  match e with
  | mkElement _ t cs =>
      match t with
      | Some EmptyString => false
      | _ => true
      end && forallb texts_nonempty cs
  end.

(** The rows of a mapping, record by record. *)
Definition rows_of (data : dict Record_) : list AliasRow :=
  flat_map (fun kv => map (fun a => {| alias := a; term := fst kv |})
                          (entry_terms (snd kv))) data.

(** The events of a trace that are lines on stdout / writes to the output. *)
Definition is_write (ev : event) : bool :=
  match ev with
  | Stdout _ => false
  | _ => true
  end.

Definition writes (tr : list event) : list event := filter is_write tr.

(** What [parseCondition] returns on an entry all of whose paths can be
    followed. *)
Definition condensed (lower : string -> string) (e : Element)
  : option (string * Record_) :=
  match name_text e, code_leaf e, alias_texts e with
  | Some name, Some leaf, Some raw =>
      Some (lower name,
            {| mesh_code := text leaf; entry_terms := map lower raw |})
  | _, _, _ => None
  end.

(** The diagnostic of the first [try] block of [parseCondition] that
    fails. *)
Definition failure_message (e : Element) : string :=
  match name_text e, code_leaf e with
  | None, _ => MeSHParser.term_error
  | Some _, None => MeSHParser.code_error
  | Some _, Some _ => MeSHParser.entry_terms_error
  end.

Definition has_code_leaf (e : Element) : bool :=
  match code_leaf e with
  | Some _ => true
  | None => false
  end.

(** One line of [isCondition] per entry without a code leaf. *)
Definition skip_lines (es : list Element) : list event :=
  map (fun _ => Stdout MeSHParser.descriptor_error)
      (filter (fun e => negb (has_code_leaf e)) es).

(** The root with only some of its children. *)
Definition with_children (root : Element) (cs : list Element) : Element :=
  mkElement (tag root) (text root) cs.

(** ** Sample documents *)

Definition leaf (name txt : string) : Element := mkElement name (Some txt) [].

Definition node (name : string) (cs : list Element) : Element :=
  mkElement name None cs.

(** A descriptor in the MeSH layout, with one concept. *)
Definition descriptor (name code : string) (aliases : list string) : Element :=
  node "DescriptorRecord"
    [ node "DescriptorName" [leaf "String" name];
      node "TreeNumberList" [leaf "TreeNumber" code];
      node "ConceptList"
        [ node "Concept"
            [ node "TermList"
                (map (fun a => node "Term" [leaf "String" a]) aliases) ] ] ].

Definition flu : Element := descriptor "Flu" "C01.001" ["Influenza"; "Grippe"].

Definition flu_doc : Element := node "DescriptorRecordSet" [flu].

(** [<TreeNumberList><TreeNumber/></TreeNumberList>]: a code leaf without
    text. *)
Definition textless_code : Element :=
  node "DescriptorRecord"
    [ node "DescriptorName" [leaf "String" "Flu"];
      node "TreeNumberList" [node "TreeNumber" []];
      node "ConceptList" [] ].

(** A code leaf whose text is the empty string. *)
Definition empty_code : Element := descriptor "Flu" "" [].

(** A selected descriptor without [DescriptorName]. *)
Definition nameless : Element :=
  node "DescriptorRecord"
    [ node "TreeNumberList" [leaf "TreeNumber" "C02"];
      node "ConceptList" [] ].

(** A descriptor without [TreeNumberList]. *)
Definition codeless : Element :=
  node "DescriptorRecord"
    [ node "DescriptorName" [leaf "String" "Aspirin"];
      node "ConceptList" [] ].

(** The rows of a mapping when each key is looked up again in the mapping,
    as [data[term]] does. *)
Definition rows_by_key (data : dict Record_) (ks : list string)
  : list AliasRow :=
  flat_map (fun k =>
              match dict_get data k with
              | Some r => map (fun a => {| alias := a; term := k |})
                              (entry_terms r)
              | None => []
              end) ks.

(** Two descriptors with the same name in different case. *)
Definition flu_again : Element := descriptor "FLU" "C08.730" ["Grippe"].

(** A mapping with a record that has no aliases. *)
Definition two_terms : dict Record_ :=
  [ ("flu", {| mesh_code := Some "C01.001";
               entry_terms := ["influenza"; "grippe"] |});
    ("measles", {| mesh_code := Some "C02.782"; entry_terms := [] |}) ].

(** ** What the rest of the scripts' behaviour is stated with *)

(** The loop of [parseFile] goes on after this child: it has no code leaf,
    or its code does not start with [C], or it is accepted and all its paths
    can be followed. *)
Definition processable (lower : string -> string) (e : Element) : bool :=
  match code_leaf e with
  | None => true
  | Some leaf =>
      match text leaf with
      | Some (String c _) =>
          if Ascii.eqb c "C"%char then
            match condensed lower e with
            | Some _ => true
            | None => false
            end
          else true
      | _ => false
      end
  end.

(** The elements of [l] that are not in [seen], each at its first
    occurrence. *)
Fixpoint first_occurrences (seen l : list string) : list string :=
  match l with
  | [] => []
  | x :: l' =>
      if in_dec string_dec x seen then first_occurrences seen l'
      else x :: first_occurrences (x :: seen) l'
  end.

(** The number of [Term] elements of one [Concept]. *)
Definition count_terms (concept : Element) : nat :=
  match find concept "TermList" with
  | Some termList => List.length (findall termList "Term")
  | None => 0
  end.

(** The rows of a trace, in the order they were written. *)
Definition written_rows (tr : list event) : list AliasRow :=
  flat_map (fun ev => match ev with
                      | WriteRow row => [row]
                      | _ => []
                      end) tr.

(** A descriptor with two tree numbers, the second one with the marker. *)
Definition marker_second : Element :=
  node "DescriptorRecord"
    [ node "DescriptorName" [leaf "String" "Aspirin"];
      node "TreeNumberList"
        [leaf "TreeNumber" "D02.455"; leaf "TreeNumber" "C26.733"];
      node "ConceptList" [] ].

(** A descriptor with two concepts. *)
Definition measles : Element :=
  node "DescriptorRecord"
    [ node "DescriptorName" [leaf "String" "Measles"];
      node "TreeNumberList" [leaf "TreeNumber" "C01.925"];
      node "ConceptList"
        [ node "Concept"
            [ node "TermList"
                [ node "Term" [leaf "String" "Measles"];
                  node "Term" [leaf "String" "Rubeola"] ] ];
          node "Concept"
            [ node "TermList" [ node "Term" [leaf "String" "Morbilli"] ] ] ] ].

(** ** [str.lower] on code points

    A [str] is a sequence of Unicode code points.  [str.lower] replaces each
    character by its full lowercase mapping, except GREEK CAPITAL LETTER
    SIGMA (U+03A3), whose replacement depends on the characters around it.
    The three tables are those of the Unicode Character Database 14.0.0 that
    CPython 3.11 is built with. *)

Module Unicode.

Local Open Scope N_scope.

(** The code points, other than U+03A3, that lowercasing changes, each with
    its full lowercase mapping. *)
Definition lower_table : list (N * list N) :=
  [
    (65, [97]); (66, [98]); (67, [99]); (68, [100]); (69, [101]); (70, [102]);
    (71, [103]); (72, [104]); (73, [105]); (74, [106]); (75, [107]);
    (76, [108]); (77, [109]); (78, [110]); (79, [111]); (80, [112]);
    (81, [113]); (82, [114]); (83, [115]); (84, [116]); (85, [117]);
    (86, [118]); (87, [119]); (88, [120]); (89, [121]); (90, [122]);
    (192, [224]); (193, [225]); (194, [226]); (195, [227]); (196, [228]);
    (197, [229]); (198, [230]); (199, [231]); (200, [232]); (201, [233]);
    (202, [234]); (203, [235]); (204, [236]); (205, [237]); (206, [238]);
    (207, [239]); (208, [240]); (209, [241]); (210, [242]); (211, [243]);
    (212, [244]); (213, [245]); (214, [246]); (216, [248]); (217, [249]);
    (218, [250]); (219, [251]); (220, [252]); (221, [253]); (222, [254]);
    (256, [257]); (258, [259]); (260, [261]); (262, [263]); (264, [265]);
    (266, [267]); (268, [269]); (270, [271]); (272, [273]); (274, [275]);
    (276, [277]); (278, [279]); (280, [281]); (282, [283]); (284, [285]);
    (286, [287]); (288, [289]); (290, [291]); (292, [293]); (294, [295]);
    (296, [297]); (298, [299]); (300, [301]); (302, [303]); (304, [105; 775]);
    (306, [307]); (308, [309]); (310, [311]); (313, [314]); (315, [316]);
    (317, [318]); (319, [320]); (321, [322]); (323, [324]); (325, [326]);
    (327, [328]); (330, [331]); (332, [333]); (334, [335]); (336, [337]);
    (338, [339]); (340, [341]); (342, [343]); (344, [345]); (346, [347]);
    (348, [349]); (350, [351]); (352, [353]); (354, [355]); (356, [357]);
    (358, [359]); (360, [361]); (362, [363]); (364, [365]); (366, [367]);
    (368, [369]); (370, [371]); (372, [373]); (374, [375]); (376, [255]);
    (377, [378]); (379, [380]); (381, [382]); (385, [595]); (386, [387]);
    (388, [389]); (390, [596]); (391, [392]); (393, [598]); (394, [599]);
    (395, [396]); (398, [477]); (399, [601]); (400, [603]); (401, [402]);
    (403, [608]); (404, [611]); (406, [617]); (407, [616]); (408, [409]);
    (412, [623]); (413, [626]); (415, [629]); (416, [417]); (418, [419]);
    (420, [421]); (422, [640]); (423, [424]); (425, [643]); (428, [429]);
    (430, [648]); (431, [432]); (433, [650]); (434, [651]); (435, [436]);
    (437, [438]); (439, [658]); (440, [441]); (444, [445]); (452, [454]);
    (453, [454]); (455, [457]); (456, [457]); (458, [460]); (459, [460]);
    (461, [462]); (463, [464]); (465, [466]); (467, [468]); (469, [470]);
    (471, [472]); (473, [474]); (475, [476]); (478, [479]); (480, [481]);
    (482, [483]); (484, [485]); (486, [487]); (488, [489]); (490, [491]);
    (492, [493]); (494, [495]); (497, [499]); (498, [499]); (500, [501]);
    (502, [405]); (503, [447]); (504, [505]); (506, [507]); (508, [509]);
    (510, [511]); (512, [513]); (514, [515]); (516, [517]); (518, [519]);
    (520, [521]); (522, [523]); (524, [525]); (526, [527]); (528, [529]);
    (530, [531]); (532, [533]); (534, [535]); (536, [537]); (538, [539]);
    (540, [541]); (542, [543]); (544, [414]); (546, [547]); (548, [549]);
    (550, [551]); (552, [553]); (554, [555]); (556, [557]); (558, [559]);
    (560, [561]); (562, [563]); (570, [11365]); (571, [572]); (573, [410]);
    (574, [11366]); (577, [578]); (579, [384]); (580, [649]); (581, [652]);
    (582, [583]); (584, [585]); (586, [587]); (588, [589]); (590, [591]);
    (880, [881]); (882, [883]); (886, [887]); (895, [1011]); (902, [940]);
    (904, [941]); (905, [942]); (906, [943]); (908, [972]); (910, [973]);
    (911, [974]); (913, [945]); (914, [946]); (915, [947]); (916, [948]);
    (917, [949]); (918, [950]); (919, [951]); (920, [952]); (921, [953]);
    (922, [954]); (923, [955]); (924, [956]); (925, [957]); (926, [958]);
    (927, [959]); (928, [960]); (929, [961]); (932, [964]); (933, [965]);
    (934, [966]); (935, [967]); (936, [968]); (937, [969]); (938, [970]);
    (939, [971]); (975, [983]); (984, [985]); (986, [987]); (988, [989]);
    (990, [991]); (992, [993]); (994, [995]); (996, [997]); (998, [999]);
    (1000, [1001]); (1002, [1003]); (1004, [1005]); (1006, [1007]);
    (1012, [952]); (1015, [1016]); (1017, [1010]); (1018, [1019]);
    (1021, [891]); (1022, [892]); (1023, [893]); (1024, [1104]);
    (1025, [1105]); (1026, [1106]); (1027, [1107]); (1028, [1108]);
    (1029, [1109]); (1030, [1110]); (1031, [1111]); (1032, [1112]);
    (1033, [1113]); (1034, [1114]); (1035, [1115]); (1036, [1116]);
    (1037, [1117]); (1038, [1118]); (1039, [1119]); (1040, [1072]);
    (1041, [1073]); (1042, [1074]); (1043, [1075]); (1044, [1076]);
    (1045, [1077]); (1046, [1078]); (1047, [1079]); (1048, [1080]);
    (1049, [1081]); (1050, [1082]); (1051, [1083]); (1052, [1084]);
    (1053, [1085]); (1054, [1086]); (1055, [1087]); (1056, [1088]);
    (1057, [1089]); (1058, [1090]); (1059, [1091]); (1060, [1092]);
    (1061, [1093]); (1062, [1094]); (1063, [1095]); (1064, [1096]);
    (1065, [1097]); (1066, [1098]); (1067, [1099]); (1068, [1100]);
    (1069, [1101]); (1070, [1102]); (1071, [1103]); (1120, [1121]);
    (1122, [1123]); (1124, [1125]); (1126, [1127]); (1128, [1129]);
    (1130, [1131]); (1132, [1133]); (1134, [1135]); (1136, [1137]);
    (1138, [1139]); (1140, [1141]); (1142, [1143]); (1144, [1145]);
    (1146, [1147]); (1148, [1149]); (1150, [1151]); (1152, [1153]);
    (1162, [1163]); (1164, [1165]); (1166, [1167]); (1168, [1169]);
    (1170, [1171]); (1172, [1173]); (1174, [1175]); (1176, [1177]);
    (1178, [1179]); (1180, [1181]); (1182, [1183]); (1184, [1185]);
    (1186, [1187]); (1188, [1189]); (1190, [1191]); (1192, [1193]);
    (1194, [1195]); (1196, [1197]); (1198, [1199]); (1200, [1201]);
    (1202, [1203]); (1204, [1205]); (1206, [1207]); (1208, [1209]);
    (1210, [1211]); (1212, [1213]); (1214, [1215]); (1216, [1231]);
    (1217, [1218]); (1219, [1220]); (1221, [1222]); (1223, [1224]);
    (1225, [1226]); (1227, [1228]); (1229, [1230]); (1232, [1233]);
    (1234, [1235]); (1236, [1237]); (1238, [1239]); (1240, [1241]);
    (1242, [1243]); (1244, [1245]); (1246, [1247]); (1248, [1249]);
    (1250, [1251]); (1252, [1253]); (1254, [1255]); (1256, [1257]);
    (1258, [1259]); (1260, [1261]); (1262, [1263]); (1264, [1265]);
    (1266, [1267]); (1268, [1269]); (1270, [1271]); (1272, [1273]);
    (1274, [1275]); (1276, [1277]); (1278, [1279]); (1280, [1281]);
    (1282, [1283]); (1284, [1285]); (1286, [1287]); (1288, [1289]);
    (1290, [1291]); (1292, [1293]); (1294, [1295]); (1296, [1297]);
    (1298, [1299]); (1300, [1301]); (1302, [1303]); (1304, [1305]);
    (1306, [1307]); (1308, [1309]); (1310, [1311]); (1312, [1313]);
    (1314, [1315]); (1316, [1317]); (1318, [1319]); (1320, [1321]);
    (1322, [1323]); (1324, [1325]); (1326, [1327]); (1329, [1377]);
    (1330, [1378]); (1331, [1379]); (1332, [1380]); (1333, [1381]);
    (1334, [1382]); (1335, [1383]); (1336, [1384]); (1337, [1385]);
    (1338, [1386]); (1339, [1387]); (1340, [1388]); (1341, [1389]);
    (1342, [1390]); (1343, [1391]); (1344, [1392]); (1345, [1393]);
    (1346, [1394]); (1347, [1395]); (1348, [1396]); (1349, [1397]);
    (1350, [1398]); (1351, [1399]); (1352, [1400]); (1353, [1401]);
    (1354, [1402]); (1355, [1403]); (1356, [1404]); (1357, [1405]);
    (1358, [1406]); (1359, [1407]); (1360, [1408]); (1361, [1409]);
    (1362, [1410]); (1363, [1411]); (1364, [1412]); (1365, [1413]);
    (1366, [1414]); (4256, [11520]); (4257, [11521]); (4258, [11522]);
    (4259, [11523]); (4260, [11524]); (4261, [11525]); (4262, [11526]);
    (4263, [11527]); (4264, [11528]); (4265, [11529]); (4266, [11530]);
    (4267, [11531]); (4268, [11532]); (4269, [11533]); (4270, [11534]);
    (4271, [11535]); (4272, [11536]); (4273, [11537]); (4274, [11538]);
    (4275, [11539]); (4276, [11540]); (4277, [11541]); (4278, [11542]);
    (4279, [11543]); (4280, [11544]); (4281, [11545]); (4282, [11546]);
    (4283, [11547]); (4284, [11548]); (4285, [11549]); (4286, [11550]);
    (4287, [11551]); (4288, [11552]); (4289, [11553]); (4290, [11554]);
    (4291, [11555]); (4292, [11556]); (4293, [11557]); (4295, [11559]);
    (4301, [11565]); (5024, [43888]); (5025, [43889]); (5026, [43890]);
    (5027, [43891]); (5028, [43892]); (5029, [43893]); (5030, [43894]);
    (5031, [43895]); (5032, [43896]); (5033, [43897]); (5034, [43898]);
    (5035, [43899]); (5036, [43900]); (5037, [43901]); (5038, [43902]);
    (5039, [43903]); (5040, [43904]); (5041, [43905]); (5042, [43906]);
    (5043, [43907]); (5044, [43908]); (5045, [43909]); (5046, [43910]);
    (5047, [43911]); (5048, [43912]); (5049, [43913]); (5050, [43914]);
    (5051, [43915]); (5052, [43916]); (5053, [43917]); (5054, [43918]);
    (5055, [43919]); (5056, [43920]); (5057, [43921]); (5058, [43922]);
    (5059, [43923]); (5060, [43924]); (5061, [43925]); (5062, [43926]);
    (5063, [43927]); (5064, [43928]); (5065, [43929]); (5066, [43930]);
    (5067, [43931]); (5068, [43932]); (5069, [43933]); (5070, [43934]);
    (5071, [43935]); (5072, [43936]); (5073, [43937]); (5074, [43938]);
    (5075, [43939]); (5076, [43940]); (5077, [43941]); (5078, [43942]);
    (5079, [43943]); (5080, [43944]); (5081, [43945]); (5082, [43946]);
    (5083, [43947]); (5084, [43948]); (5085, [43949]); (5086, [43950]);
    (5087, [43951]); (5088, [43952]); (5089, [43953]); (5090, [43954]);
    (5091, [43955]); (5092, [43956]); (5093, [43957]); (5094, [43958]);
    (5095, [43959]); (5096, [43960]); (5097, [43961]); (5098, [43962]);
    (5099, [43963]); (5100, [43964]); (5101, [43965]); (5102, [43966]);
    (5103, [43967]); (5104, [5112]); (5105, [5113]); (5106, [5114]);
    (5107, [5115]); (5108, [5116]); (5109, [5117]); (7312, [4304]);
    (7313, [4305]); (7314, [4306]); (7315, [4307]); (7316, [4308]);
    (7317, [4309]); (7318, [4310]); (7319, [4311]); (7320, [4312]);
    (7321, [4313]); (7322, [4314]); (7323, [4315]); (7324, [4316]);
    (7325, [4317]); (7326, [4318]); (7327, [4319]); (7328, [4320]);
    (7329, [4321]); (7330, [4322]); (7331, [4323]); (7332, [4324]);
    (7333, [4325]); (7334, [4326]); (7335, [4327]); (7336, [4328]);
    (7337, [4329]); (7338, [4330]); (7339, [4331]); (7340, [4332]);
    (7341, [4333]); (7342, [4334]); (7343, [4335]); (7344, [4336]);
    (7345, [4337]); (7346, [4338]); (7347, [4339]); (7348, [4340]);
    (7349, [4341]); (7350, [4342]); (7351, [4343]); (7352, [4344]);
    (7353, [4345]); (7354, [4346]); (7357, [4349]); (7358, [4350]);
    (7359, [4351]); (7680, [7681]); (7682, [7683]); (7684, [7685]);
    (7686, [7687]); (7688, [7689]); (7690, [7691]); (7692, [7693]);
    (7694, [7695]); (7696, [7697]); (7698, [7699]); (7700, [7701]);
    (7702, [7703]); (7704, [7705]); (7706, [7707]); (7708, [7709]);
    (7710, [7711]); (7712, [7713]); (7714, [7715]); (7716, [7717]);
    (7718, [7719]); (7720, [7721]); (7722, [7723]); (7724, [7725]);
    (7726, [7727]); (7728, [7729]); (7730, [7731]); (7732, [7733]);
    (7734, [7735]); (7736, [7737]); (7738, [7739]); (7740, [7741]);
    (7742, [7743]); (7744, [7745]); (7746, [7747]); (7748, [7749]);
    (7750, [7751]); (7752, [7753]); (7754, [7755]); (7756, [7757]);
    (7758, [7759]); (7760, [7761]); (7762, [7763]); (7764, [7765]);
    (7766, [7767]); (7768, [7769]); (7770, [7771]); (7772, [7773]);
    (7774, [7775]); (7776, [7777]); (7778, [7779]); (7780, [7781]);
    (7782, [7783]); (7784, [7785]); (7786, [7787]); (7788, [7789]);
    (7790, [7791]); (7792, [7793]); (7794, [7795]); (7796, [7797]);
    (7798, [7799]); (7800, [7801]); (7802, [7803]); (7804, [7805]);
    (7806, [7807]); (7808, [7809]); (7810, [7811]); (7812, [7813]);
    (7814, [7815]); (7816, [7817]); (7818, [7819]); (7820, [7821]);
    (7822, [7823]); (7824, [7825]); (7826, [7827]); (7828, [7829]);
    (7838, [223]); (7840, [7841]); (7842, [7843]); (7844, [7845]);
    (7846, [7847]); (7848, [7849]); (7850, [7851]); (7852, [7853]);
    (7854, [7855]); (7856, [7857]); (7858, [7859]); (7860, [7861]);
    (7862, [7863]); (7864, [7865]); (7866, [7867]); (7868, [7869]);
    (7870, [7871]); (7872, [7873]); (7874, [7875]); (7876, [7877]);
    (7878, [7879]); (7880, [7881]); (7882, [7883]); (7884, [7885]);
    (7886, [7887]); (7888, [7889]); (7890, [7891]); (7892, [7893]);
    (7894, [7895]); (7896, [7897]); (7898, [7899]); (7900, [7901]);
    (7902, [7903]); (7904, [7905]); (7906, [7907]); (7908, [7909]);
    (7910, [7911]); (7912, [7913]); (7914, [7915]); (7916, [7917]);
    (7918, [7919]); (7920, [7921]); (7922, [7923]); (7924, [7925]);
    (7926, [7927]); (7928, [7929]); (7930, [7931]); (7932, [7933]);
    (7934, [7935]); (7944, [7936]); (7945, [7937]); (7946, [7938]);
    (7947, [7939]); (7948, [7940]); (7949, [7941]); (7950, [7942]);
    (7951, [7943]); (7960, [7952]); (7961, [7953]); (7962, [7954]);
    (7963, [7955]); (7964, [7956]); (7965, [7957]); (7976, [7968]);
    (7977, [7969]); (7978, [7970]); (7979, [7971]); (7980, [7972]);
    (7981, [7973]); (7982, [7974]); (7983, [7975]); (7992, [7984]);
    (7993, [7985]); (7994, [7986]); (7995, [7987]); (7996, [7988]);
    (7997, [7989]); (7998, [7990]); (7999, [7991]); (8008, [8000]);
    (8009, [8001]); (8010, [8002]); (8011, [8003]); (8012, [8004]);
    (8013, [8005]); (8025, [8017]); (8027, [8019]); (8029, [8021]);
    (8031, [8023]); (8040, [8032]); (8041, [8033]); (8042, [8034]);
    (8043, [8035]); (8044, [8036]); (8045, [8037]); (8046, [8038]);
    (8047, [8039]); (8072, [8064]); (8073, [8065]); (8074, [8066]);
    (8075, [8067]); (8076, [8068]); (8077, [8069]); (8078, [8070]);
    (8079, [8071]); (8088, [8080]); (8089, [8081]); (8090, [8082]);
    (8091, [8083]); (8092, [8084]); (8093, [8085]); (8094, [8086]);
    (8095, [8087]); (8104, [8096]); (8105, [8097]); (8106, [8098]);
    (8107, [8099]); (8108, [8100]); (8109, [8101]); (8110, [8102]);
    (8111, [8103]); (8120, [8112]); (8121, [8113]); (8122, [8048]);
    (8123, [8049]); (8124, [8115]); (8136, [8050]); (8137, [8051]);
    (8138, [8052]); (8139, [8053]); (8140, [8131]); (8152, [8144]);
    (8153, [8145]); (8154, [8054]); (8155, [8055]); (8168, [8160]);
    (8169, [8161]); (8170, [8058]); (8171, [8059]); (8172, [8165]);
    (8184, [8056]); (8185, [8057]); (8186, [8060]); (8187, [8061]);
    (8188, [8179]); (8486, [969]); (8490, [107]); (8491, [229]);
    (8498, [8526]); (8544, [8560]); (8545, [8561]); (8546, [8562]);
    (8547, [8563]); (8548, [8564]); (8549, [8565]); (8550, [8566]);
    (8551, [8567]); (8552, [8568]); (8553, [8569]); (8554, [8570]);
    (8555, [8571]); (8556, [8572]); (8557, [8573]); (8558, [8574]);
    (8559, [8575]); (8579, [8580]); (9398, [9424]); (9399, [9425]);
    (9400, [9426]); (9401, [9427]); (9402, [9428]); (9403, [9429]);
    (9404, [9430]); (9405, [9431]); (9406, [9432]); (9407, [9433]);
    (9408, [9434]); (9409, [9435]); (9410, [9436]); (9411, [9437]);
    (9412, [9438]); (9413, [9439]); (9414, [9440]); (9415, [9441]);
    (9416, [9442]); (9417, [9443]); (9418, [9444]); (9419, [9445]);
    (9420, [9446]); (9421, [9447]); (9422, [9448]); (9423, [9449]);
    (11264, [11312]); (11265, [11313]); (11266, [11314]); (11267, [11315]);
    (11268, [11316]); (11269, [11317]); (11270, [11318]); (11271, [11319]);
    (11272, [11320]); (11273, [11321]); (11274, [11322]); (11275, [11323]);
    (11276, [11324]); (11277, [11325]); (11278, [11326]); (11279, [11327]);
    (11280, [11328]); (11281, [11329]); (11282, [11330]); (11283, [11331]);
    (11284, [11332]); (11285, [11333]); (11286, [11334]); (11287, [11335]);
    (11288, [11336]); (11289, [11337]); (11290, [11338]); (11291, [11339]);
    (11292, [11340]); (11293, [11341]); (11294, [11342]); (11295, [11343]);
    (11296, [11344]); (11297, [11345]); (11298, [11346]); (11299, [11347]);
    (11300, [11348]); (11301, [11349]); (11302, [11350]); (11303, [11351]);
    (11304, [11352]); (11305, [11353]); (11306, [11354]); (11307, [11355]);
    (11308, [11356]); (11309, [11357]); (11310, [11358]); (11311, [11359]);
    (11360, [11361]); (11362, [619]); (11363, [7549]); (11364, [637]);
    (11367, [11368]); (11369, [11370]); (11371, [11372]); (11373, [593]);
    (11374, [625]); (11375, [592]); (11376, [594]); (11378, [11379]);
    (11381, [11382]); (11390, [575]); (11391, [576]); (11392, [11393]);
    (11394, [11395]); (11396, [11397]); (11398, [11399]); (11400, [11401]);
    (11402, [11403]); (11404, [11405]); (11406, [11407]); (11408, [11409]);
    (11410, [11411]); (11412, [11413]); (11414, [11415]); (11416, [11417]);
    (11418, [11419]); (11420, [11421]); (11422, [11423]); (11424, [11425]);
    (11426, [11427]); (11428, [11429]); (11430, [11431]); (11432, [11433]);
    (11434, [11435]); (11436, [11437]); (11438, [11439]); (11440, [11441]);
    (11442, [11443]); (11444, [11445]); (11446, [11447]); (11448, [11449]);
    (11450, [11451]); (11452, [11453]); (11454, [11455]); (11456, [11457]);
    (11458, [11459]); (11460, [11461]); (11462, [11463]); (11464, [11465]);
    (11466, [11467]); (11468, [11469]); (11470, [11471]); (11472, [11473]);
    (11474, [11475]); (11476, [11477]); (11478, [11479]); (11480, [11481]);
    (11482, [11483]); (11484, [11485]); (11486, [11487]); (11488, [11489]);
    (11490, [11491]); (11499, [11500]); (11501, [11502]); (11506, [11507]);
    (42560, [42561]); (42562, [42563]); (42564, [42565]); (42566, [42567]);
    (42568, [42569]); (42570, [42571]); (42572, [42573]); (42574, [42575]);
    (42576, [42577]); (42578, [42579]); (42580, [42581]); (42582, [42583]);
    (42584, [42585]); (42586, [42587]); (42588, [42589]); (42590, [42591]);
    (42592, [42593]); (42594, [42595]); (42596, [42597]); (42598, [42599]);
    (42600, [42601]); (42602, [42603]); (42604, [42605]); (42624, [42625]);
    (42626, [42627]); (42628, [42629]); (42630, [42631]); (42632, [42633]);
    (42634, [42635]); (42636, [42637]); (42638, [42639]); (42640, [42641]);
    (42642, [42643]); (42644, [42645]); (42646, [42647]); (42648, [42649]);
    (42650, [42651]); (42786, [42787]); (42788, [42789]); (42790, [42791]);
    (42792, [42793]); (42794, [42795]); (42796, [42797]); (42798, [42799]);
    (42802, [42803]); (42804, [42805]); (42806, [42807]); (42808, [42809]);
    (42810, [42811]); (42812, [42813]); (42814, [42815]); (42816, [42817]);
    (42818, [42819]); (42820, [42821]); (42822, [42823]); (42824, [42825]);
    (42826, [42827]); (42828, [42829]); (42830, [42831]); (42832, [42833]);
    (42834, [42835]); (42836, [42837]); (42838, [42839]); (42840, [42841]);
    (42842, [42843]); (42844, [42845]); (42846, [42847]); (42848, [42849]);
    (42850, [42851]); (42852, [42853]); (42854, [42855]); (42856, [42857]);
    (42858, [42859]); (42860, [42861]); (42862, [42863]); (42873, [42874]);
    (42875, [42876]); (42877, [7545]); (42878, [42879]); (42880, [42881]);
    (42882, [42883]); (42884, [42885]); (42886, [42887]); (42891, [42892]);
    (42893, [613]); (42896, [42897]); (42898, [42899]); (42902, [42903]);
    (42904, [42905]); (42906, [42907]); (42908, [42909]); (42910, [42911]);
    (42912, [42913]); (42914, [42915]); (42916, [42917]); (42918, [42919]);
    (42920, [42921]); (42922, [614]); (42923, [604]); (42924, [609]);
    (42925, [620]); (42926, [618]); (42928, [670]); (42929, [647]);
    (42930, [669]); (42931, [43859]); (42932, [42933]); (42934, [42935]);
    (42936, [42937]); (42938, [42939]); (42940, [42941]); (42942, [42943]);
    (42944, [42945]); (42946, [42947]); (42948, [42900]); (42949, [642]);
    (42950, [7566]); (42951, [42952]); (42953, [42954]); (42960, [42961]);
    (42966, [42967]); (42968, [42969]); (42997, [42998]); (65313, [65345]);
    (65314, [65346]); (65315, [65347]); (65316, [65348]); (65317, [65349]);
    (65318, [65350]); (65319, [65351]); (65320, [65352]); (65321, [65353]);
    (65322, [65354]); (65323, [65355]); (65324, [65356]); (65325, [65357]);
    (65326, [65358]); (65327, [65359]); (65328, [65360]); (65329, [65361]);
    (65330, [65362]); (65331, [65363]); (65332, [65364]); (65333, [65365]);
    (65334, [65366]); (65335, [65367]); (65336, [65368]); (65337, [65369]);
    (65338, [65370]); (66560, [66600]); (66561, [66601]); (66562, [66602]);
    (66563, [66603]); (66564, [66604]); (66565, [66605]); (66566, [66606]);
    (66567, [66607]); (66568, [66608]); (66569, [66609]); (66570, [66610]);
    (66571, [66611]); (66572, [66612]); (66573, [66613]); (66574, [66614]);
    (66575, [66615]); (66576, [66616]); (66577, [66617]); (66578, [66618]);
    (66579, [66619]); (66580, [66620]); (66581, [66621]); (66582, [66622]);
    (66583, [66623]); (66584, [66624]); (66585, [66625]); (66586, [66626]);
    (66587, [66627]); (66588, [66628]); (66589, [66629]); (66590, [66630]);
    (66591, [66631]); (66592, [66632]); (66593, [66633]); (66594, [66634]);
    (66595, [66635]); (66596, [66636]); (66597, [66637]); (66598, [66638]);
    (66599, [66639]); (66736, [66776]); (66737, [66777]); (66738, [66778]);
    (66739, [66779]); (66740, [66780]); (66741, [66781]); (66742, [66782]);
    (66743, [66783]); (66744, [66784]); (66745, [66785]); (66746, [66786]);
    (66747, [66787]); (66748, [66788]); (66749, [66789]); (66750, [66790]);
    (66751, [66791]); (66752, [66792]); (66753, [66793]); (66754, [66794]);
    (66755, [66795]); (66756, [66796]); (66757, [66797]); (66758, [66798]);
    (66759, [66799]); (66760, [66800]); (66761, [66801]); (66762, [66802]);
    (66763, [66803]); (66764, [66804]); (66765, [66805]); (66766, [66806]);
    (66767, [66807]); (66768, [66808]); (66769, [66809]); (66770, [66810]);
    (66771, [66811]); (66928, [66967]); (66929, [66968]); (66930, [66969]);
    (66931, [66970]); (66932, [66971]); (66933, [66972]); (66934, [66973]);
    (66935, [66974]); (66936, [66975]); (66937, [66976]); (66938, [66977]);
    (66940, [66979]); (66941, [66980]); (66942, [66981]); (66943, [66982]);
    (66944, [66983]); (66945, [66984]); (66946, [66985]); (66947, [66986]);
    (66948, [66987]); (66949, [66988]); (66950, [66989]); (66951, [66990]);
    (66952, [66991]); (66953, [66992]); (66954, [66993]); (66956, [66995]);
    (66957, [66996]); (66958, [66997]); (66959, [66998]); (66960, [66999]);
    (66961, [67000]); (66962, [67001]); (66964, [67003]); (66965, [67004]);
    (68736, [68800]); (68737, [68801]); (68738, [68802]); (68739, [68803]);
    (68740, [68804]); (68741, [68805]); (68742, [68806]); (68743, [68807]);
    (68744, [68808]); (68745, [68809]); (68746, [68810]); (68747, [68811]);
    (68748, [68812]); (68749, [68813]); (68750, [68814]); (68751, [68815]);
    (68752, [68816]); (68753, [68817]); (68754, [68818]); (68755, [68819]);
    (68756, [68820]); (68757, [68821]); (68758, [68822]); (68759, [68823]);
    (68760, [68824]); (68761, [68825]); (68762, [68826]); (68763, [68827]);
    (68764, [68828]); (68765, [68829]); (68766, [68830]); (68767, [68831]);
    (68768, [68832]); (68769, [68833]); (68770, [68834]); (68771, [68835]);
    (68772, [68836]); (68773, [68837]); (68774, [68838]); (68775, [68839]);
    (68776, [68840]); (68777, [68841]); (68778, [68842]); (68779, [68843]);
    (68780, [68844]); (68781, [68845]); (68782, [68846]); (68783, [68847]);
    (68784, [68848]); (68785, [68849]); (68786, [68850]); (71840, [71872]);
    (71841, [71873]); (71842, [71874]); (71843, [71875]); (71844, [71876]);
    (71845, [71877]); (71846, [71878]); (71847, [71879]); (71848, [71880]);
    (71849, [71881]); (71850, [71882]); (71851, [71883]); (71852, [71884]);
    (71853, [71885]); (71854, [71886]); (71855, [71887]); (71856, [71888]);
    (71857, [71889]); (71858, [71890]); (71859, [71891]); (71860, [71892]);
    (71861, [71893]); (71862, [71894]); (71863, [71895]); (71864, [71896]);
    (71865, [71897]); (71866, [71898]); (71867, [71899]); (71868, [71900]);
    (71869, [71901]); (71870, [71902]); (71871, [71903]); (93760, [93792]);
    (93761, [93793]); (93762, [93794]); (93763, [93795]); (93764, [93796]);
    (93765, [93797]); (93766, [93798]); (93767, [93799]); (93768, [93800]);
    (93769, [93801]); (93770, [93802]); (93771, [93803]); (93772, [93804]);
    (93773, [93805]); (93774, [93806]); (93775, [93807]); (93776, [93808]);
    (93777, [93809]); (93778, [93810]); (93779, [93811]); (93780, [93812]);
    (93781, [93813]); (93782, [93814]); (93783, [93815]); (93784, [93816]);
    (93785, [93817]); (93786, [93818]); (93787, [93819]); (93788, [93820]);
    (93789, [93821]); (93790, [93822]); (93791, [93823]); (125184, [125218]);
    (125185, [125219]); (125186, [125220]); (125187, [125221]);
    (125188, [125222]); (125189, [125223]); (125190, [125224]);
    (125191, [125225]); (125192, [125226]); (125193, [125227]);
    (125194, [125228]); (125195, [125229]); (125196, [125230]);
    (125197, [125231]); (125198, [125232]); (125199, [125233]);
    (125200, [125234]); (125201, [125235]); (125202, [125236]);
    (125203, [125237]); (125204, [125238]); (125205, [125239]);
    (125206, [125240]); (125207, [125241]); (125208, [125242]);
    (125209, [125243]); (125210, [125244]); (125211, [125245]);
    (125212, [125246]); (125213, [125247]); (125214, [125248]);
    (125215, [125249]); (125216, [125250]); (125217, [125251])
  ].

(** The ranges of the code points with the property Cased. *)
Definition cased_ranges : list (N * N) :=
  [
    (65, 90); (97, 122); (170, 170); (181, 181); (186, 186); (192, 214);
    (216, 246); (248, 442); (444, 447); (452, 659); (661, 696); (704, 705);
    (736, 740); (837, 837); (880, 883); (886, 887); (890, 893); (895, 895);
    (902, 902); (904, 906); (908, 908); (910, 929); (931, 1013); (1015, 1153);
    (1162, 1327); (1329, 1366); (1376, 1416); (4256, 4293); (4295, 4295);
    (4301, 4301); (4304, 4346); (4349, 4351); (5024, 5109); (5112, 5117);
    (7296, 7304); (7312, 7354); (7357, 7359); (7424, 7615); (7680, 7957);
    (7960, 7965); (7968, 8005); (8008, 8013); (8016, 8023); (8025, 8025);
    (8027, 8027); (8029, 8029); (8031, 8061); (8064, 8116); (8118, 8124);
    (8126, 8126); (8130, 8132); (8134, 8140); (8144, 8147); (8150, 8155);
    (8160, 8172); (8178, 8180); (8182, 8188); (8305, 8305); (8319, 8319);
    (8336, 8348); (8450, 8450); (8455, 8455); (8458, 8467); (8469, 8469);
    (8473, 8477); (8484, 8484); (8486, 8486); (8488, 8488); (8490, 8493);
    (8495, 8500); (8505, 8505); (8508, 8511); (8517, 8521); (8526, 8526);
    (8544, 8575); (8579, 8580); (9398, 9449); (11264, 11492); (11499, 11502);
    (11506, 11507); (11520, 11557); (11559, 11559); (11565, 11565);
    (42560, 42605); (42624, 42653); (42786, 42887); (42891, 42894);
    (42896, 42954); (42960, 42961); (42963, 42963); (42965, 42969);
    (42997, 42998); (43000, 43002); (43824, 43866); (43868, 43880);
    (43888, 43967); (64256, 64262); (64275, 64279); (65313, 65338);
    (65345, 65370); (66560, 66639); (66736, 66771); (66776, 66811);
    (66928, 66938); (66940, 66954); (66956, 66962); (66964, 66965);
    (66967, 66977); (66979, 66993); (66995, 67001); (67003, 67004);
    (67456, 67456); (67459, 67461); (67463, 67504); (67506, 67514);
    (68736, 68786); (68800, 68850); (71840, 71903); (93760, 93823);
    (119808, 119892); (119894, 119964); (119966, 119967); (119970, 119970);
    (119973, 119974); (119977, 119980); (119982, 119993); (119995, 119995);
    (119997, 120003); (120005, 120069); (120071, 120074); (120077, 120084);
    (120086, 120092); (120094, 120121); (120123, 120126); (120128, 120132);
    (120134, 120134); (120138, 120144); (120146, 120485); (120488, 120512);
    (120514, 120538); (120540, 120570); (120572, 120596); (120598, 120628);
    (120630, 120654); (120656, 120686); (120688, 120712); (120714, 120744);
    (120746, 120770); (120772, 120779); (122624, 122633); (122635, 122654);
    (125184, 125251); (127280, 127305); (127312, 127337); (127344, 127369)
  ].

(** The ranges of the code points with the property Case_Ignorable. *)
Definition case_ignorable_ranges : list (N * N) :=
  [
    (39, 39); (46, 46); (58, 58); (94, 94); (96, 96); (168, 168); (173, 173);
    (175, 175); (180, 180); (183, 184); (688, 879); (884, 885); (890, 890);
    (900, 901); (903, 903); (1155, 1161); (1369, 1369); (1375, 1375);
    (1425, 1469); (1471, 1471); (1473, 1474); (1476, 1477); (1479, 1479);
    (1524, 1524); (1536, 1541); (1552, 1562); (1564, 1564); (1600, 1600);
    (1611, 1631); (1648, 1648); (1750, 1757); (1759, 1768); (1770, 1773);
    (1807, 1807); (1809, 1809); (1840, 1866); (1958, 1968); (2027, 2037);
    (2042, 2042); (2045, 2045); (2070, 2093); (2137, 2139); (2184, 2184);
    (2192, 2193); (2200, 2207); (2249, 2306); (2362, 2362); (2364, 2364);
    (2369, 2376); (2381, 2381); (2385, 2391); (2402, 2403); (2417, 2417);
    (2433, 2433); (2492, 2492); (2497, 2500); (2509, 2509); (2530, 2531);
    (2558, 2558); (2561, 2562); (2620, 2620); (2625, 2626); (2631, 2632);
    (2635, 2637); (2641, 2641); (2672, 2673); (2677, 2677); (2689, 2690);
    (2748, 2748); (2753, 2757); (2759, 2760); (2765, 2765); (2786, 2787);
    (2810, 2815); (2817, 2817); (2876, 2876); (2879, 2879); (2881, 2884);
    (2893, 2893); (2901, 2902); (2914, 2915); (2946, 2946); (3008, 3008);
    (3021, 3021); (3072, 3072); (3076, 3076); (3132, 3132); (3134, 3136);
    (3142, 3144); (3146, 3149); (3157, 3158); (3170, 3171); (3201, 3201);
    (3260, 3260); (3263, 3263); (3270, 3270); (3276, 3277); (3298, 3299);
    (3328, 3329); (3387, 3388); (3393, 3396); (3405, 3405); (3426, 3427);
    (3457, 3457); (3530, 3530); (3538, 3540); (3542, 3542); (3633, 3633);
    (3636, 3642); (3654, 3662); (3761, 3761); (3764, 3772); (3782, 3782);
    (3784, 3789); (3864, 3865); (3893, 3893); (3895, 3895); (3897, 3897);
    (3953, 3966); (3968, 3972); (3974, 3975); (3981, 3991); (3993, 4028);
    (4038, 4038); (4141, 4144); (4146, 4151); (4153, 4154); (4157, 4158);
    (4184, 4185); (4190, 4192); (4209, 4212); (4226, 4226); (4229, 4230);
    (4237, 4237); (4253, 4253); (4348, 4348); (4957, 4959); (5906, 5908);
    (5938, 5939); (5970, 5971); (6002, 6003); (6068, 6069); (6071, 6077);
    (6086, 6086); (6089, 6099); (6103, 6103); (6109, 6109); (6155, 6159);
    (6211, 6211); (6277, 6278); (6313, 6313); (6432, 6434); (6439, 6440);
    (6450, 6450); (6457, 6459); (6679, 6680); (6683, 6683); (6742, 6742);
    (6744, 6750); (6752, 6752); (6754, 6754); (6757, 6764); (6771, 6780);
    (6783, 6783); (6823, 6823); (6832, 6862); (6912, 6915); (6964, 6964);
    (6966, 6970); (6972, 6972); (6978, 6978); (7019, 7027); (7040, 7041);
    (7074, 7077); (7080, 7081); (7083, 7085); (7142, 7142); (7144, 7145);
    (7149, 7149); (7151, 7153); (7212, 7219); (7222, 7223); (7288, 7293);
    (7376, 7378); (7380, 7392); (7394, 7400); (7405, 7405); (7412, 7412);
    (7416, 7417); (7468, 7530); (7544, 7544); (7579, 7679); (8125, 8125);
    (8127, 8129); (8141, 8143); (8157, 8159); (8173, 8175); (8189, 8190);
    (8203, 8207); (8216, 8217); (8228, 8228); (8231, 8231); (8234, 8238);
    (8288, 8292); (8294, 8303); (8305, 8305); (8319, 8319); (8336, 8348);
    (8400, 8432); (11388, 11389); (11503, 11505); (11631, 11631);
    (11647, 11647); (11744, 11775); (11823, 11823); (12293, 12293);
    (12330, 12333); (12337, 12341); (12347, 12347); (12441, 12446);
    (12540, 12542); (40981, 40981); (42232, 42237); (42508, 42508);
    (42607, 42610); (42612, 42621); (42623, 42623); (42652, 42655);
    (42736, 42737); (42752, 42785); (42864, 42864); (42888, 42890);
    (42994, 42996); (43000, 43001); (43010, 43010); (43014, 43014);
    (43019, 43019); (43045, 43046); (43052, 43052); (43204, 43205);
    (43232, 43249); (43263, 43263); (43302, 43309); (43335, 43345);
    (43392, 43394); (43443, 43443); (43446, 43449); (43452, 43453);
    (43471, 43471); (43493, 43494); (43561, 43566); (43569, 43570);
    (43573, 43574); (43587, 43587); (43596, 43596); (43632, 43632);
    (43644, 43644); (43696, 43696); (43698, 43700); (43703, 43704);
    (43710, 43711); (43713, 43713); (43741, 43741); (43756, 43757);
    (43763, 43764); (43766, 43766); (43867, 43871); (43881, 43883);
    (44005, 44005); (44008, 44008); (44013, 44013); (64286, 64286);
    (64434, 64450); (65024, 65039); (65043, 65043); (65056, 65071);
    (65106, 65106); (65109, 65109); (65279, 65279); (65287, 65287);
    (65294, 65294); (65306, 65306); (65342, 65342); (65344, 65344);
    (65392, 65392); (65438, 65439); (65507, 65507); (65529, 65531);
    (66045, 66045); (66272, 66272); (66422, 66426); (67456, 67461);
    (67463, 67504); (67506, 67514); (68097, 68099); (68101, 68102);
    (68108, 68111); (68152, 68154); (68159, 68159); (68325, 68326);
    (68900, 68903); (69291, 69292); (69446, 69456); (69506, 69509);
    (69633, 69633); (69688, 69702); (69744, 69744); (69747, 69748);
    (69759, 69761); (69811, 69814); (69817, 69818); (69821, 69821);
    (69826, 69826); (69837, 69837); (69888, 69890); (69927, 69931);
    (69933, 69940); (70003, 70003); (70016, 70017); (70070, 70078);
    (70089, 70092); (70095, 70095); (70191, 70193); (70196, 70196);
    (70198, 70199); (70206, 70206); (70367, 70367); (70371, 70378);
    (70400, 70401); (70459, 70460); (70464, 70464); (70502, 70508);
    (70512, 70516); (70712, 70719); (70722, 70724); (70726, 70726);
    (70750, 70750); (70835, 70840); (70842, 70842); (70847, 70848);
    (70850, 70851); (71090, 71093); (71100, 71101); (71103, 71104);
    (71132, 71133); (71219, 71226); (71229, 71229); (71231, 71232);
    (71339, 71339); (71341, 71341); (71344, 71349); (71351, 71351);
    (71453, 71455); (71458, 71461); (71463, 71467); (71727, 71735);
    (71737, 71738); (71995, 71996); (71998, 71998); (72003, 72003);
    (72148, 72151); (72154, 72155); (72160, 72160); (72193, 72202);
    (72243, 72248); (72251, 72254); (72263, 72263); (72273, 72278);
    (72281, 72283); (72330, 72342); (72344, 72345); (72752, 72758);
    (72760, 72765); (72767, 72767); (72850, 72871); (72874, 72880);
    (72882, 72883); (72885, 72886); (73009, 73014); (73018, 73018);
    (73020, 73021); (73023, 73029); (73031, 73031); (73104, 73105);
    (73109, 73109); (73111, 73111); (73459, 73460); (78896, 78904);
    (92912, 92916); (92976, 92982); (92992, 92995); (94031, 94031);
    (94095, 94111); (94176, 94177); (94179, 94180); (110576, 110579);
    (110581, 110587); (110589, 110590); (113821, 113822); (113824, 113827);
    (118528, 118573); (118576, 118598); (119143, 119145); (119155, 119170);
    (119173, 119179); (119210, 119213); (119362, 119364); (121344, 121398);
    (121403, 121452); (121461, 121461); (121476, 121476); (121499, 121503);
    (121505, 121519); (122880, 122886); (122888, 122904); (122907, 122913);
    (122915, 122916); (122918, 122922); (123184, 123197); (123566, 123566);
    (123628, 123631); (125136, 125142); (125252, 125259); (127995, 127999);
    (917505, 917505); (917536, 917631); (917760, 917999)
  ].

Fixpoint lookup (c : N) (table : list (N * list N)) : option (list N) :=
  match table with
  | [] => None
  | (k, l) :: table' => if k =? c then Some l else lookup c table'
  end.

Definition in_ranges (c : N) (ranges : list (N * N)) : bool :=
  existsb (fun r => (fst r <=? c) && (c <=? snd r)) ranges.

Definition is_cased (c : N) : bool := in_ranges c cased_ranges.

Definition is_case_ignorable (c : N) : bool :=
  in_ranges c case_ignorable_ranges.

(** The full lowercase mapping of one character. *)
Definition to_lower_full (c : N) : list N :=
  match lookup c lower_table with
  | Some l => l
  | None => [c]
  end.

(** The first character of [s] that is not case-ignorable. *)
Fixpoint first_not_ignorable (s : list N) : option N :=
  match s with
  | [] => None
  | c :: s' => if is_case_ignorable c then first_not_ignorable s' else Some c
  end.

Definition capital_sigma : N := 931.
Definition final_sigma : N := 962.
Definition small_sigma : N := 963.

(** The lowercase of a capital sigma with the characters [before] it, the
    nearest first, and the characters [after] it: the final form when a cased
    character comes before it and none comes after it, case-ignorable
    characters skipped on both sides. *)
Definition handle_capital_sigma (before after : list N) : N :=
  let preceded :=
    match first_not_ignorable before with
    | Some c => is_cased c
    | None => false
    end in
  let followed :=
    match first_not_ignorable after with
    | Some c => is_cased c
    | None => false
    end in
  if preceded && negb followed then final_sigma else small_sigma.

Fixpoint do_lower (before s : list N) : list N :=
  match s with
  | [] => []
  | c :: s' =>
      (if c =? capital_sigma then [handle_capital_sigma before s']
       else to_lower_full c) ++ do_lower (c :: before) s'
  end.

Definition lower (s : list N) : list N := do_lower [] s.

End Unicode.

(** A character that lowercasing leaves as it is wherever it stands. *)
Definition stable (c : N) : bool :=
  match Unicode.lookup c Unicode.lower_table with
  | Some _ => false
  | None => negb (N.eqb c Unicode.capital_sigma)
  end.

(** * Properties *)

Section Properties.

(** What [str.lower] does. *)
Variable lower : string -> string.

(** ** The two functions of the condenser, case by case *)

Lemma isCondition_eq (e : Element) :
  MeSHParser.isCondition e =
  match code_leaf e with
  | None => ([Stdout MeSHParser.descriptor_error], Return false)
  | Some leaf =>
      match text leaf with
      | None => ([], Raise TypeError)
      | Some EmptyString => ([], Raise IndexError)
      | Some (String c _) => ([], Return (Ascii.eqb c "C"%char))
      end
  end.
Proof.
  unfold MeSHParser.isCondition, code_leaf; simpl.
  destruct (find e "TreeNumberList") as [lst|]; simpl; [|reflexivity].
  destruct (find lst "TreeNumber") as [leaf|]; simpl; [|reflexivity].
  destruct (text leaf) as [[|c s]|]; reflexivity.
Qed.

Lemma term_loop_eq (terms : list Element) (acc : list string) :
  for_each terms (fun termX entryTerms =>
    bind (dot_find (Some termX) "String") (fun str =>
    bind (dot_text str) (fun t =>
    bind (dot_lower lower t) (fun termName =>
    ret (entryTerms ++ [termName]))))) acc =
  match all_some (map term_text terms) with
  | Some raw => ([], Return (acc ++ map lower raw))
  | None => ([], Raise AttributeError)
  end.
Proof.
  revert acc; induction terms as [|termX terms IH]; intros acc; simpl.
  - now rewrite app_nil_r.
  - unfold term_text at 1.
    destruct (find termX "String") as [str|]; simpl; [|reflexivity].
    destruct (text str) as [t|]; simpl; [|reflexivity].
    rewrite IH.
    destruct (all_some (map term_text terms)) as [raw|]; simpl; [|reflexivity].
    now rewrite <- app_assoc.
Qed.

Lemma concept_loop_eq (concepts : list Element) (acc : list string) :
  for_each concepts (fun concept entryTerms =>
    bind (dot_find (Some concept) "TermList") (fun termList =>
    bind (dot_findall termList "Term") (fun terms =>
    for_each terms (fun termX entryTerms =>
      bind (dot_find (Some termX) "String") (fun str =>
      bind (dot_text str) (fun t =>
      bind (dot_lower lower t) (fun termName =>
      ret (entryTerms ++ [termName]))))) entryTerms))) acc =
  match all_some (map concept_texts concepts) with
  | Some raws => ([], Return (acc ++ map lower (List.concat raws)))
  | None => ([], Raise AttributeError)
  end.
Proof.
  revert acc; induction concepts as [|concept concepts IH]; intros acc; simpl.
  - now rewrite app_nil_r.
  - unfold concept_texts at 1.
    destruct (find concept "TermList") as [termList|]; simpl; [|reflexivity].
    rewrite term_loop_eq.
    destruct (all_some (map term_text (findall termList "Term"))) as [raw|];
      simpl; [|reflexivity].
    rewrite IH.
    destruct (all_some (map concept_texts concepts)) as [raws|]; simpl;
      [|reflexivity].
    now rewrite map_app, app_assoc.
Qed.

Lemma bind_ret_l {A B : Type} (a : A) (f : A -> Py B) :
  bind (ret a) f = f a.
Proof. unfold bind, ret; now destruct (f a). Qed.

Lemma bind_Return {A B : Type} (tr : list event) (a : A) (f : A -> Py B) :
  bind (tr, Return a) f = (tr ++ fst (f a), snd (f a)).
Proof. unfold bind; now destruct (f a). Qed.

Lemma dot_find_Some {B : Type} (e : Element) (name : string)
      (k : option Element -> Py B) :
  bind (dot_find (Some e) name) k = k (find e name).
Proof. apply bind_ret_l. Qed.

Lemma term_block_eq (e : Element) :
  try_except
    (bind (dot_find (Some e) "DescriptorName") (fun name =>
     bind (dot_find name "String") (fun str =>
     bind (dot_text str) (fun t => dot_lower lower t))))
    (bind (print MeSHParser.term_error) (fun _ => exit)) =
  match name_text e with
  | Some name => ([], Return (lower name))
  | None => ([Stdout MeSHParser.term_error], SystemExit)
  end.
Proof.
  rewrite dot_find_Some; unfold name_text.
  destruct (find e "DescriptorName") as [name|]; [|reflexivity].
  rewrite dot_find_Some.
  destruct (find name "String") as [str|]; [|reflexivity].
  simpl; destruct (text str); reflexivity.
Qed.

Lemma code_block_eq (e : Element) :
  try_except
    (bind (dot_find (Some e) "TreeNumberList") (fun lst =>
     bind (dot_find lst "TreeNumber") (fun num => dot_text num)))
    (bind (print MeSHParser.code_error) (fun _ => exit)) =
  match code_leaf e with
  | Some leaf => ([], Return (text leaf))
  | None => ([Stdout MeSHParser.code_error], SystemExit)
  end.
Proof.
  rewrite dot_find_Some; unfold code_leaf.
  destruct (find e "TreeNumberList") as [lst|]; [|reflexivity].
  rewrite dot_find_Some.
  destruct (find lst "TreeNumber"); reflexivity.
Qed.

Lemma entry_terms_block_eq (e : Element) :
  try_except
    (bind (dot_find (Some e) "ConceptList") (fun conceptList =>
     bind (dot_findall conceptList "Concept") (fun concepts =>
     for_each concepts (fun concept entryTerms =>
       bind (dot_find (Some concept) "TermList") (fun termList =>
       bind (dot_findall termList "Term") (fun terms =>
       for_each terms (fun termX entryTerms =>
         bind (dot_find (Some termX) "String") (fun str =>
         bind (dot_text str) (fun t =>
         bind (dot_lower lower t) (fun termName =>
         ret (entryTerms ++ [termName]))))) entryTerms))) [])))
    (bind (print MeSHParser.entry_terms_error) (fun _ => exit)) =
  match alias_texts e with
  | Some raw => ([], Return (map lower raw))
  | None => ([Stdout MeSHParser.entry_terms_error], SystemExit)
  end.
Proof.
  rewrite dot_find_Some; unfold alias_texts.
  destruct (find e "ConceptList") as [conceptList|]; [|reflexivity].
  unfold dot_findall at 1; rewrite bind_ret_l, concept_loop_eq.
  destruct (all_some (map concept_texts (findall conceptList "Concept")));
    reflexivity.
Qed.

Lemma parseCondition_eq (e : Element) :
  MeSHParser.parseCondition lower e =
  match name_text e with
  | None => ([Stdout MeSHParser.term_error], SystemExit)
  | Some name =>
      match code_leaf e with
      | None => ([Stdout MeSHParser.code_error], SystemExit)
      | Some leaf =>
          match alias_texts e with
          | None => ([Stdout MeSHParser.entry_terms_error], SystemExit)
          | Some raw =>
              ([], Return (lower name,
                           {| mesh_code := text leaf;
                              entry_terms := map lower raw |}))
          end
      end
  end.
Proof.
  unfold MeSHParser.parseCondition.
  rewrite term_block_eq, code_block_eq, entry_terms_block_eq.
  destruct (name_text e); [|reflexivity].
  destruct (code_leaf e); [|reflexivity].
  destruct (alias_texts e); reflexivity.
Qed.

(** ** Dictionaries *)

Section Dict.

Variable V : Type.
Implicit Types (d : dict V) (k : string) (v : V).

Lemma dict_get_set_same d k v : dict_get (dict_set d k v) k = Some v.
Proof.
  induction d as [|[k' v'] d IH]; simpl.
  - now rewrite String.eqb_refl.
  - destruct (String.eqb k k') eqn:E; simpl.
    + now rewrite String.eqb_refl.
    + now rewrite E.
Qed.

Lemma dict_get_set_other d k v k' :
  k' <> k -> dict_get (dict_set d k v) k' = dict_get d k'.
Proof.
  intros Hne; induction d as [|[k0 v0] d IH]; simpl.
  - apply String.eqb_neq in Hne; now rewrite Hne.
  - destruct (String.eqb k k0) eqn:E; simpl.
    + apply String.eqb_eq in E; subst k0.
      apply String.eqb_neq in Hne; now rewrite Hne.
    + now rewrite IH.
Qed.

Lemma keys_set_in d k v k' :
  In k' (keys (dict_set d k v)) <-> k' = k \/ In k' (keys d).
Proof.
  induction d as [|[k0 v0] d IH]; simpl.
  - intuition auto.
  - destruct (String.eqb k k0) eqn:E; simpl.
    + apply String.eqb_eq in E; subst k0. intuition auto.
    + rewrite IH. intuition auto.
Qed.

Lemma dict_set_wf d k v : dict_wf d -> dict_wf (dict_set d k v).
Proof.
  unfold dict_wf; induction d as [|[k0 v0] d IH]; simpl; intros Hwf.
  - constructor; [intros []|constructor].
  - inversion Hwf as [|? ? Hnotin Hwf']; subst.
    destruct (String.eqb k k0) eqn:E; simpl.
    + apply String.eqb_eq in E; subst k0. now constructor.
    + constructor; [|now apply IH].
      fold (keys (dict_set d k v)). rewrite keys_set_in.
      intros [->|Hin]; [|contradiction].
      now rewrite String.eqb_refl in E.
Qed.

Lemma dict_set_in d k v k' v' :
  In (k', v') (dict_set d k v) -> (k' = k /\ v' = v) \/ In (k', v') d.
Proof.
  induction d as [|[k0 v0] d IH]; simpl.
  - intros [H|[]]; inversion H; auto.
  - destruct (String.eqb k k0) eqn:E; simpl.
    + intros [H|H]; [inversion H; auto|auto].
    + intros [H|H]; [auto|]. destruct (IH H); auto.
Qed.

Lemma dict_get_in d k v : dict_get d k = Some v -> In (k, v) d.
Proof.
  induction d as [|[k0 v0] d IH]; simpl; [discriminate|].
  destruct (String.eqb k k0) eqn:E.
  - apply String.eqb_eq in E; subst k0. intros H; inversion H; auto.
  - auto.
Qed.

Lemma dict_in_get d k v : dict_wf d -> In (k, v) d -> dict_get d k = Some v.
Proof.
  unfold dict_wf; induction d as [|[k0 v0] d IH]; simpl; [intros _ []|].
  intros Hwf Hin; inversion Hwf as [|? ? Hnotin Hwf']; subst.
  destruct Hin as [H|H].
  - inversion H; subst. now rewrite String.eqb_refl.
  - destruct (String.eqb k k0) eqn:E; [|auto].
    apply String.eqb_eq in E; subst k0.
    exfalso; apply Hnotin. change k with (fst (k, v)). now apply in_map.
Qed.

Lemma wf_count_occ d k :
  dict_wf d -> In k (keys d) -> count_occ string_dec (keys d) k = 1.
Proof.
  intros Hwf Hin.
  pose proof (proj1 (NoDup_count_occ string_dec (keys d)) Hwf k) as Hle.
  apply (count_occ_In string_dec) in Hin. lia.
Qed.

Lemma insert_all_wf ps d : dict_wf d -> dict_wf (insert_all ps d).
Proof.
  revert d; induction ps as [|p ps IH]; simpl; intros d Hwf; [assumption|].
  now apply IH, dict_set_wf.
Qed.

Lemma insert_all_in ps d k v :
  In (k, v) (insert_all ps d) -> In (k, v) ps \/ In (k, v) d.
Proof.
  revert d; induction ps as [|[k0 v0] ps IH]; simpl; intros d Hin; [auto|].
  destruct (IH _ Hin) as [H|H]; [auto|].
  apply dict_set_in in H. destruct H as [[-> ->]|H]; auto.
Qed.

Lemma insert_all_get_other ps d k :
  ~ In k (map fst ps) -> dict_get (insert_all ps d) k = dict_get d k.
Proof.
  revert d; induction ps as [|[k0 v0] ps IH]; simpl; intros d Hnotin; [easy|].
  rewrite IH by tauto. apply dict_get_set_other. intros ->; tauto.
Qed.

Lemma insert_all_app ps qs d :
  insert_all (ps ++ qs) d = insert_all qs (insert_all ps d).
Proof. apply fold_left_app. Qed.

(** The value under a key is the one inserted last. *)
Lemma insert_all_get_last ps k v qs d :
  ~ In k (map fst qs) ->
  dict_get (insert_all (ps ++ (k, v) :: qs) d) k = Some v.
Proof.
  intros Hnotin. rewrite insert_all_app; simpl.
  rewrite insert_all_get_other by assumption.
  apply dict_get_set_same.
Qed.

End Dict.

(** ** Loops and traces *)

Lemma for_each_app {A S : Type} (xs ys : list A) (body : A -> S -> Py S)
      (s : S) :
  for_each (xs ++ ys) body s = bind (for_each xs body s) (for_each ys body).
Proof.
  revert s; induction xs as [|x xs IH]; intros s; cbn [for_each app].
  - now rewrite bind_ret_l.
  - destruct (body x s) as [tr [s'| |]]; simpl; try reflexivity.
    rewrite IH.
    destruct (for_each xs body s') as [tr1 [s1| |]]; simpl; try reflexivity.
    destruct (for_each ys body s1) as [tr2 o2]. now rewrite app_assoc.
Qed.

Lemma bind_trace_Forall {A B : Type} (P : event -> Prop) (m : Py A)
      (f : A -> Py B) :
  Forall P (fst m) -> (forall a, Forall P (fst (f a))) ->
  Forall P (fst (bind m f)).
Proof.
  destruct m as [tr [a| |]]; simpl; intros Hm Hf; try assumption.
  specialize (Hf a). destruct (f a) as [tr' o]; simpl in *.
  apply Forall_app; auto.
Qed.

Lemma for_each_trace_Forall {A S : Type} (P : event -> Prop) (xs : list A)
      (body : A -> S -> Py S) (s : S) :
  (forall x s, In x xs -> Forall P (fst (body x s))) ->
  Forall P (fst (for_each xs body s)).
Proof.
  revert s; induction xs as [|x xs IH]; intros s Hbody; simpl.
  - constructor.
  - apply bind_trace_Forall.
    + apply Hbody; now left.
    + intros s'; apply IH. intros; apply Hbody; now right.
Qed.

Lemma all_some_app {A : Type} (xs ys : list (option A)) :
  all_some (xs ++ ys) =
  match all_some xs, all_some ys with
  | Some l, Some r => Some (l ++ r)
  | _, _ => None
  end.
Proof.
  induction xs as [|[a|] xs IH]; simpl.
  - now destruct (all_some ys).
  - rewrite IH.
    destruct (all_some xs), (all_some ys); reflexivity.
  - reflexivity.
Qed.

Lemma all_some_map_in {A B : Type} (f : A -> option B) (xs : list A)
      (ys : list B) (y : B) :
  all_some (map f xs) = Some ys -> In y ys ->
  exists x, In x xs /\ f x = Some y.
Proof.
  revert ys; induction xs as [|x xs IH]; simpl; intros ys Hall Hin.
  - inversion Hall; subst; destruct Hin.
  - destruct (f x) as [b|] eqn:Ef; [|discriminate].
    destruct (all_some (map f xs)) as [bs|]; [|discriminate].
    inversion Hall; subst. destruct Hin as [->|Hin].
    + exists x; auto.
    + destruct (IH bs eq_refl Hin) as (x' & Hx' & Hfx'). exists x'; auto.
Qed.

Lemma all_some_map_None {A B : Type} (f : A -> option B) (xs : list A)
      (x : A) :
  In x xs -> f x = None -> all_some (map f xs) = None.
Proof.
  induction xs as [|x0 xs IH]; simpl; intros Hin Hf; [destruct Hin|].
  destruct Hin as [->|Hin].
  - now rewrite Hf.
  - destruct (f x0); [|reflexivity]. now rewrite IH.
Qed.

(** ** The loop of [parseFile] *)

Lemma selected_code_leaf (e : Element) :
  selected e = true ->
  exists leaf c s,
    code_leaf e = Some leaf /\ text leaf = Some (String c s) /\
    Ascii.eqb c "C"%char = true.
Proof.
  unfold selected.
  destruct (code_leaf e) as [leaf|]; [|discriminate].
  destruct (text leaf) as [[|c s]|] eqn:Et; try discriminate.
  intros H; exists leaf, c, s; auto.
Qed.

Lemma isCondition_selected (e : Element) (tr : list event) :
  MeSHParser.isCondition e = (tr, Return true) <->
  tr = [] /\ selected e = true.
Proof.
  rewrite isCondition_eq; unfold selected.
  destruct (code_leaf e) as [leaf|]; [|split; [|intros []]; discriminate].
  destruct (text leaf) as [[|c s]|];
    try (split; [|intros []]; discriminate).
  split.
  - intros H; split; congruence.
  - intros [-> ->]; reflexivity.
Qed.

Lemma parseCondition_condensed (e : Element) (tr : list event)
      (p : string * Record_) :
  MeSHParser.parseCondition lower e = (tr, Return p) <->
  tr = [] /\ condensed lower e = Some p.
Proof.
  rewrite parseCondition_eq; unfold condensed.
  destruct (name_text e); [|split; [|intros []]; discriminate].
  destruct (code_leaf e); [|split; [|intros []]; discriminate].
  destruct (alias_texts e); [|split; [|intros []]; discriminate].
  split.
  - intros H; inversion H; auto.
  - intros [-> H]; inversion H; reflexivity.
Qed.

Lemma parseCondition_failure (e : Element) :
  condensed lower e = None ->
  MeSHParser.parseCondition lower e =
    ([Stdout (failure_message e)], SystemExit).
Proof.
  rewrite parseCondition_eq; unfold condensed, failure_message.
  destruct (name_text e); [|reflexivity].
  destruct (code_leaf e); [|reflexivity].
  destruct (alias_texts e); [discriminate|reflexivity].
Qed.

Lemma loop_body_eq (e : Element) (d : dict Record_) :
  MeSHParser.loop_body lower e d =
  match code_leaf e with
  | None => ([Stdout MeSHParser.descriptor_error], Return d)
  | Some leaf =>
      match text leaf with
      | None => ([], Raise TypeError)
      | Some EmptyString => ([], Raise IndexError)
      | Some (String c _) =>
          if Ascii.eqb c "C"%char then
            match condensed lower e with
            | Some p => ([], Return (dict_set d (fst p) (snd p)))
            | None => ([Stdout (failure_message e)], SystemExit)
            end
          else ([], Return d)
      end
  end.
Proof.
  unfold MeSHParser.loop_body. rewrite isCondition_eq.
  destruct (code_leaf e) as [leaf|]; [|reflexivity].
  destruct (text leaf) as [[|c s]|]; try reflexivity.
  change (@pair (list event) (outcome bool) [] (Return (Ascii.eqb c "C"%char)))
    with (ret (Ascii.eqb c "C"%char)).
  rewrite bind_ret_l.
  destruct (Ascii.eqb c "C"%char); [|reflexivity].
  destruct (condensed lower e) as [p|] eqn:Ec.
  - now rewrite (proj2 (parseCondition_condensed e [] p) (conj eq_refl Ec)).
  - now rewrite (parseCondition_failure e Ec).
Qed.

Lemma loop_returns (es : list Element) (d : dict Record_) (tr : list event)
      (m : dict Record_) :
  for_each es (MeSHParser.loop_body lower) d = (tr, Return m) ->
  exists ps,
    all_some (map (condensed lower) (filter selected es)) = Some ps /\
    m = insert_all ps d /\ tr = skip_lines es.
Proof.
  revert d tr m; induction es as [|e es IH]; intros d tr m; simpl.
  - intros H; inversion H; subst. now exists [].
  - rewrite loop_body_eq. unfold skip_lines; simpl.
    replace (selected e) with
      (match code_leaf e with
       | Some leaf =>
           match text leaf with
           | Some (String c _) => Ascii.eqb c "C"%char
           | _ => false
           end
       | None => false
       end) by reflexivity.
    unfold has_code_leaf at 1.
    destruct (code_leaf e) as [leaf|]; simpl.
    + destruct (text leaf) as [[|c s]|]; simpl; try discriminate.
      destruct (Ascii.eqb c "C"%char); simpl.
      * destruct (condensed lower e) as [p|]; simpl; [|discriminate].
        destruct (for_each es (MeSHParser.loop_body lower)
                    (dict_set d (fst p) (snd p)))
          as [tr' o] eqn:E.
        intros H; inversion H; subst.
        destruct (IH _ _ _ E) as (ps & Hps & Hm & Htr).
        exists (p :: ps). rewrite Hps. auto.
      * destruct (for_each es (MeSHParser.loop_body lower) d) as [tr' o] eqn:E.
        intros H; inversion H; subst. exact (IH _ _ _ E).
    + destruct (for_each es (MeSHParser.loop_body lower) d) as [tr' o] eqn:E.
      intros H; inversion H; subst.
      destruct (IH _ _ _ E) as (ps & Hps & Hm & Htr).
      exists ps. rewrite Htr. auto.
Qed.

Lemma loop_on_selected (es : list Element) (d : dict Record_)
      (ps : list (string * Record_)) :
  Forall (fun e => selected e = true) es ->
  all_some (map (condensed lower) es) = Some ps ->
  for_each es (MeSHParser.loop_body lower) d = ([], Return (insert_all ps d)).
Proof.
  revert d ps; induction es as [|e es IH]; intros d ps Hsel; simpl.
  - intros H; inversion H; reflexivity.
  - inversion Hsel as [|? ? He Hes]; subst.
    destruct (selected_code_leaf e He) as (leaf & c & s & Hl & Ht & Hc).
    rewrite loop_body_eq, Hl, Ht, Hc.
    destruct (condensed lower e) as [p|]; [|discriminate].
    destruct (all_some (map (condensed lower) es)) as [qs|] eqn:E;
      [|discriminate].
    intros H; inversion H; subst. simpl.
    now rewrite (IH _ qs Hes eq_refl).
Qed.

Lemma loop_not_return (es : list Element) (d : dict Record_) (e : Element)
      (tr : list event) (m : dict Record_) :
  In e es -> selected e = true -> condensed lower e = None ->
  for_each es (MeSHParser.loop_body lower) d <> (tr, Return m).
Proof.
  intros Hin Hsel Hc H.
  destruct (loop_returns _ _ H) as (ps & Hps & _).
  rewrite (all_some_map_None (condensed lower) (filter selected es) e) in Hps;
    [discriminate| |assumption].
  apply filter_In; auto.
Qed.

Lemma loop_body_trace (P : event -> Prop) (e : Element) (d : dict Record_) :
  P (Stdout MeSHParser.descriptor_error) ->
  P (Stdout MeSHParser.term_error) ->
  P (Stdout MeSHParser.entry_terms_error) ->
  Forall P (fst (MeSHParser.loop_body lower e d)).
Proof.
  intros Hd Ht He. rewrite loop_body_eq. unfold failure_message, condensed.
  destruct (code_leaf e) as [leaf|]; simpl; [|auto].
  destruct (text leaf) as [[|c s]|]; simpl; auto.
  destruct (Ascii.eqb c "C"%char); simpl; auto.
  destruct (name_text e); simpl; auto.
  destruct (alias_texts e); simpl; auto.
Qed.

Lemma loop_trace (P : event -> Prop) (es : list Element) (d : dict Record_) :
  P (Stdout MeSHParser.descriptor_error) ->
  P (Stdout MeSHParser.term_error) ->
  P (Stdout MeSHParser.entry_terms_error) ->
  Forall P (fst (for_each es (MeSHParser.loop_body lower) d)).
Proof.
  intros Hd Ht He. apply for_each_trace_Forall.
  intros x s _. now apply loop_body_trace.
Qed.

(** ** Text of a tree without empty texts *)

Lemma texts_nonempty_child (e c : Element) :
  texts_nonempty e = true -> In c (children e) -> texts_nonempty c = true.
Proof.
  destruct e as [t x cs]; simpl; intros H Hin.
  apply andb_true_iff in H; destruct H as [_ H].
  rewrite forallb_forall in H. now apply H.
Qed.

Lemma texts_nonempty_find (e c : Element) (name : string) :
  texts_nonempty e = true -> find e name = Some c -> texts_nonempty c = true.
Proof.
  intros H Hf. apply (texts_nonempty_child e c H).
  unfold find in Hf. now apply find_some in Hf.
Qed.

Lemma texts_nonempty_text (e : Element) :
  texts_nonempty e = true -> text e <> Some "".
Proof.
  destruct e as [t [[|c s]|] cs]; simpl; intros H; congruence.
Qed.

Lemma name_text_nonempty (e : Element) (name : string) :
  texts_nonempty e = true -> name_text e = Some name -> name <> "".
Proof.
  unfold name_text; intros H.
  destruct (find e "DescriptorName") as [n|] eqn:En; [|discriminate].
  destruct (find n "String") as [str|] eqn:Es; [|discriminate].
  intros Ht ->.
  apply (texts_nonempty_text str); [|assumption].
  eapply texts_nonempty_find; [|exact Es].
  eapply texts_nonempty_find; [exact H|exact En].
Qed.

(** * The claims *)

(** C1.  When [buildMapping] returns, every pair of the mapping is what
    [parseCondition] returned for some child of the root that [isCondition]
    accepted (its first code leaf's text starts with [C]); every other child
    was answered [False] by [isCondition]; and the mapping is the one built
    from the accepted children alone, so a child without the marker or
    without the code path contributes nothing. *)
Theorem buildMapping_only_selected (root : Element) (tr : list event)
        (m : dict Record_) :
  MeSHParser.buildMapping lower root = (tr, Return m) ->
  (forall t r, In (t, r) m ->
     exists e, In e (children root) /\ selected e = true /\
               MeSHParser.isCondition e = ([], Return true) /\
               MeSHParser.parseCondition lower e = ([], Return (t, r))) /\
  (forall e, In e (children root) -> selected e = false ->
     exists line, MeSHParser.isCondition e = (line, Return false)) /\
  MeSHParser.buildMapping lower
    (with_children root (filter selected (children root))) = ([], Return m).
Proof.
  unfold MeSHParser.buildMapping; intros H.
  destruct (loop_returns _ _ H) as (ps & Hps & Hm & Htr).
  split; [|split].
  - intros t r Hin. subst m.
    apply insert_all_in in Hin. destruct Hin as [Hin|[]].
    destruct (all_some_map_in _ _ (t, r) Hps Hin) as (e & He & Hc).
    apply filter_In in He. destruct He as [He Hsel].
    exists e. repeat split; try assumption.
    + now apply isCondition_selected.
    + now apply parseCondition_condensed.
  - intros e Hin Hsel.
    apply in_split in Hin. destruct Hin as (pre & post & Hch).
    rewrite Hch, for_each_app in H.
    destruct (for_each pre (MeSHParser.loop_body lower) []) as [tr0 [d0| |]];
      try discriminate.
    simpl in H. revert H. rewrite loop_body_eq, isCondition_eq.
    unfold selected in Hsel.
    destruct (code_leaf e) as [lf|]; [|intros _; eauto].
    destruct (text lf) as [[|c s]|]; simpl; try discriminate.
    rewrite Hsel. eauto.
  - simpl. subst m. apply loop_on_selected; [|assumption].
    apply Forall_forall. intros e He. now apply filter_In in He.
Qed.

(** C2.  When [parseCondition] returns [(term, record)], it has printed
    nothing, [term] is the lowercased text under [DescriptorName]/[String],
    [mesh_code] is the text of the first [TreeNumber] of the first
    [TreeNumberList], unchanged, and [entry_terms] is the lowercased texts of
    the [Term]s of every [Concept], concept after concept and term after
    term in document order, all in one list. *)
Theorem parseCondition_result (e : Element) (tr : list event) (t : string)
        (r : Record_) :
  MeSHParser.parseCondition lower e = (tr, Return (t, r)) ->
  tr = [] /\
  exists name leaf conceptList raws,
    name_text e = Some name /\ t = lower name /\
    code_leaf e = Some leaf /\ mesh_code r = text leaf /\
    find e "ConceptList" = Some conceptList /\
    all_some (map concept_texts (findall conceptList "Concept")) = Some raws /\
    entry_terms r = map lower (List.concat raws).
Proof.
  intros H. apply parseCondition_condensed in H. destruct H as [-> H].
  split; [reflexivity|]. revert H. unfold condensed, alias_texts.
  destruct (name_text e) as [name|] eqn:En; [|discriminate].
  destruct (code_leaf e) as [lf|] eqn:El; [|discriminate].
  destruct (find e "ConceptList") as [conceptList|] eqn:Ec; [|discriminate].
  destruct (all_some (map concept_texts (findall conceptList "Concept")))
    as [raws|] eqn:Er; [|discriminate].
  simpl. intros H; inversion H; subst.
  exists name, lf, conceptList, raws. repeat split; auto.
Qed.

(** ** Lowercasing twice *)

Lemma lookup_in (c : N) (table : list (N * list N)) (l : list N) :
  Unicode.lookup c table = Some l -> In (c, l) table.
Proof.
  induction table as [|[k l'] table IH]; simpl; [discriminate|].
  destruct (N.eqb k c) eqn:E.
  - apply N.eqb_eq in E; subst k. intros H; inversion H; auto.
  - auto.
Qed.

Lemma lower_table_stable :
  forallb (fun kl => forallb stable (snd kl)) Unicode.lower_table = true.
Proof. vm_compute. reflexivity. Qed.

Lemma to_lower_full_stable (c : N) :
  N.eqb c Unicode.capital_sigma = false ->
  forallb stable (Unicode.to_lower_full c) = true.
Proof.
  intros Hc. unfold Unicode.to_lower_full.
  destruct (Unicode.lookup c Unicode.lower_table) as [l|] eqn:E.
  - apply lookup_in in E.
    pose proof lower_table_stable as H. rewrite forallb_forall in H.
    exact (H (c, l) E).
  - simpl. unfold stable. now rewrite E, Hc.
Qed.

Lemma do_lower_stable (before s : list N) :
  forallb stable (Unicode.do_lower before s) = true.
Proof.
  revert before; induction s as [|c s IH]; intros before; simpl;
    [reflexivity|].
  rewrite forallb_app, IH, andb_true_r.
  destruct (N.eqb c Unicode.capital_sigma) eqn:E.
  - unfold Unicode.handle_capital_sigma.
    destruct (_ && _); vm_compute; reflexivity.
  - now apply to_lower_full_stable.
Qed.

Lemma do_lower_of_stable (before s : list N) :
  forallb stable s = true -> Unicode.do_lower before s = s.
Proof.
  revert before; induction s as [|c s IH]; intros before; simpl;
    [reflexivity|].
  intros H; apply andb_true_iff in H; destruct H as [Hc Hs].
  rewrite (IH _ Hs). unfold stable in Hc. unfold Unicode.to_lower_full.
  destruct (Unicode.lookup c Unicode.lower_table); [discriminate|].
  apply negb_true_iff in Hc. now rewrite Hc.
Qed.

(** C9.  Lowercasing is idempotent: for every text [s], a sequence of code
    points, [str.lower] applied to [s.lower()] gives [s.lower()] again.  The
    full lowercase mapping of a character is made of characters that have no
    mapping of their own, and both lowercase forms of the capital sigma are
    such characters. *)
Theorem lower_idempotent (s : list N) :
  Unicode.lower (Unicode.lower s) = Unicode.lower s.
Proof.
  unfold Unicode.lower. apply do_lower_of_stable, do_lower_stable.
Qed.

(** The same for texts kept in an encoded form, such as the UTF-8 bytes:
    when decoding undoes encoding, the lowercasing of encoded texts that
    [Unicode.lower] induces is idempotent as well. *)
Section Encoding.

Variable encode : list N -> string.
Variable decode : string -> list N.
Hypothesis decode_encode : forall l, decode (encode l) = l.

Lemma encoded_lower_idempotent (s : string) :
  encode (Unicode.lower (decode (encode (Unicode.lower (decode s))))) =
  encode (Unicode.lower (decode s)).
Proof.
  rewrite decode_encode. f_equal. unfold Unicode.lower.
  apply do_lower_of_stable, do_lower_stable.
Qed.

End Encoding.

Lemma code_error_distinct :
  Stdout MeSHParser.code_error <> Stdout MeSHParser.descriptor_error /\
  Stdout MeSHParser.code_error <> Stdout MeSHParser.term_error /\
  Stdout MeSHParser.code_error <> Stdout MeSHParser.entry_terms_error.
Proof. repeat split; intros H; inversion H. Qed.

(** C10.  For a child [e] of the root that [isCondition] accepted, the
    [try] block of [parseCondition] that reads the code finds the leaf that
    [isCondition] read: [parseCondition] neither prints the code diagnostic
    nor ends in the code failure, and the trace of [buildMapping] never
    holds that diagnostic. *)
Theorem code_error_unreachable (root e : Element) (tr : list event) :
  In e (children root) ->
  MeSHParser.isCondition e = (tr, Return true) ->
  (exists leaf, code_leaf e = Some leaf) /\
  ~ In (Stdout MeSHParser.code_error)
       (fst (MeSHParser.parseCondition lower e)) /\
  MeSHParser.parseCondition lower e <>
    ([Stdout MeSHParser.code_error], SystemExit) /\
  ~ In (Stdout MeSHParser.code_error)
       (fst (MeSHParser.buildMapping lower root)).
Proof.
  intros _ H. apply isCondition_selected in H. destruct H as [_ Hsel].
  destruct (selected_code_leaf e Hsel) as (lf & c & s & Hl & _ & _).
  destruct code_error_distinct as (Hd & Ht & He).
  assert (Hp : ~ In (Stdout MeSHParser.code_error)
                 (fst (MeSHParser.parseCondition lower e))).
  { rewrite parseCondition_eq, Hl.
    destruct (name_text e); simpl; [|intros [E|[]]; now apply Ht].
    destruct (alias_texts e); simpl; [intros []|].
    intros [E|[]]; now apply He. }
  split; [eauto|]. split; [assumption|]. split.
  - intros E. apply Hp. rewrite E. now left.
  - unfold MeSHParser.buildMapping. intros Hin.
    pose proof (loop_trace (fun ev => ev <> Stdout MeSHParser.code_error)
                  (children root) []) as HF.
    rewrite Forall_forall in HF.
    apply (HF (fun E => Hd (eq_sym E)) (fun E => Ht (eq_sym E))
              (fun E => He (eq_sym E)) _ Hin).
    reflexivity.
Qed.

(** C6.  [isCondition] on a descriptor whose code leaf is there but has no
    text: [code] is [None], the [try] block is left without an exception,
    and [code[0]] after the block raises [TypeError], which nothing catches;
    [buildMapping] and [parseFile] end with it.  With the empty string for a
    text the subscript raises [IndexError].  Only a descriptor without the
    leaf is answered [False]. *)
Theorem isCondition_raises_on_textless_code :
  MeSHParser.isCondition textless_code = ([], Raise TypeError) /\
  MeSHParser.buildMapping lower
    (node "DescriptorRecordSet" [flu; textless_code])
    = ([], Raise TypeError) /\
  MeSHParser.parseFile lower "rawData.xml"
    (Some (node "DescriptorRecordSet" [flu; textless_code]))
    = ([], Raise TypeError) /\
  MeSHParser.isCondition empty_code = ([], Raise IndexError) /\
  MeSHParser.isCondition codeless =
    ([Stdout MeSHParser.descriptor_error], Return false).
Proof. repeat split; reflexivity. Qed.

(** C8.  Every key of the mapping that [buildMapping] returns is a
    non-empty string.  The documents are those the XML parser delivers: it
    gives [None], never the empty string, for an element without character
    data, so every text of the tree has at least one character; and
    [str.lower] gives the empty string for the empty string only. *)
Theorem mapping_terms_nonempty (root : Element) (tr : list event)
        (m : dict Record_) :
  (forall s, lower s = "" -> s = "") ->
  texts_nonempty root = true ->
  MeSHParser.buildMapping lower root = (tr, Return m) ->
  forall t, In t (keys m) -> t <> "".
Proof.
  unfold MeSHParser.buildMapping; intros lower_empty Hne H t Hin.
  destruct (loop_returns _ _ H) as (ps & Hps & Hm & _). subst m.
  unfold keys in Hin. apply in_map_iff in Hin.
  destruct Hin as ([t' r] & Ht & Hin); simpl in Ht; subst t'.
  apply insert_all_in in Hin. destruct Hin as [Hin|[]].
  destruct (all_some_map_in _ _ (t, r) Hps Hin) as (e & He & Hc).
  apply filter_In in He. destruct He as [He _].
  revert Hc. unfold condensed.
  destruct (name_text e) as [name|] eqn:En; [|discriminate].
  destruct (code_leaf e); [|discriminate].
  destruct (alias_texts e); [|discriminate].
  intros Hc; inversion Hc; subst. intros Hl.
  apply lower_empty in Hl.
  refine (name_text_nonempty _ _ En Hl).
  now apply (texts_nonempty_child root e).
Qed.

(** ** Fatal entries and the output *)

Lemma parseFile_eq (inputFile : string) (root : Element) :
  MeSHParser.parseFile lower inputFile (Some root) =
  bind (MeSHParser.buildMapping lower root) (fun data => emit (JsonDump data)).
Proof.
  unfold MeSHParser.parseFile.
  change (try_except (ret root)
            (bind (print (MeSHParser.read_error inputFile)) (fun _ => exit)))
    with (ret root).
  now rewrite bind_ret_l.
Qed.

Lemma writes_nil (tr : list event) :
  Forall (fun ev => is_write ev = false) tr -> writes tr = [].
Proof.
  unfold writes; induction 1 as [|ev tr Hev _ IH]; simpl.
  - reflexivity.
  - now rewrite Hev.
Qed.

Lemma loop_body_fatal (e : Element) (d : dict Record_) :
  selected e = true -> condensed lower e = None ->
  MeSHParser.loop_body lower e d = ([Stdout (failure_message e)], SystemExit).
Proof.
  intros Hsel Hc.
  destruct (selected_code_leaf e Hsel) as (lf & c & s & Hl & Ht & Hm).
  now rewrite loop_body_eq, Hl, Ht, Hm, Hc.
Qed.

Lemma condensed_name (e : Element) (t : string) (r : Record_) :
  condensed lower e = Some (t, r) ->
  exists name, name_text e = Some name /\ t = lower name.
Proof.
  unfold condensed.
  destruct (name_text e) as [name|]; [|discriminate].
  destruct (code_leaf e); [|discriminate].
  destruct (alias_texts e); [|discriminate].
  intros H; inversion H. now exists name.
Qed.

(** C5.  Two accepted children [e1], then [e2], whose names lowercase to one
    term, [e2] being the last accepted child with that term: when
    [buildMapping] returns, the term is a key of the mapping once, the
    record under it is the one [parseCondition] returned for [e2], and the
    trace holds nothing but the lines of [isCondition] for the children
    without a code leaf. *)
Theorem duplicate_term_last_wins (root : Element) (tr : list event)
        (m : dict Record_) (pre mid post : list Element) (e1 e2 : Element)
        (n1 n2 : string) :
  MeSHParser.buildMapping lower root = (tr, Return m) ->
  children root = pre ++ e1 :: mid ++ e2 :: post ->
  selected e1 = true -> selected e2 = true ->
  name_text e1 = Some n1 -> name_text e2 = Some n2 ->
  lower n1 = lower n2 ->
  (forall e n, In e post -> selected e = true -> name_text e = Some n ->
               lower n <> lower n2) ->
  exists r2,
    MeSHParser.parseCondition lower e2 = ([], Return (lower n2, r2)) /\
    dict_get m (lower n2) = Some r2 /\
    count_occ string_dec (keys m) (lower n2) = 1 /\
    tr = skip_lines (children root).
Proof.
  unfold MeSHParser.buildMapping.
  intros H Hch _ Hsel2 _ Hn2 _ Hlast.
  destruct (loop_returns _ _ H) as (ps & Hps & Hm & Htr).
  rewrite Hch, app_comm_cons, app_assoc, filter_app, map_app, all_some_app
    in Hps.
  simpl in Hps. rewrite Hsel2 in Hps. simpl in Hps.
  destruct (all_some (map (condensed lower)
                        (filter selected (pre ++ e1 :: mid))))
    as [ps1|]; [|discriminate].
  destruct (condensed lower e2) as [[t2 r2]|] eqn:Ec2; [|discriminate].
  destruct (all_some (map (condensed lower) (filter selected post)))
    as [ps3|] eqn:E3;
    [|discriminate].
  simpl in Hps. inversion Hps; subst ps; clear Hps.
  destruct (condensed_name _ Ec2) as (n & Hn & ->).
  rewrite Hn2 in Hn; inversion Hn; subst n.
  assert (Hget : dict_get m (lower n2) = Some r2).
  { subst m. apply insert_all_get_last.
    intros Hin. apply in_map_iff in Hin.
    destruct Hin as ([k v] & Hk & Hin); simpl in Hk; subst k.
    destruct (all_some_map_in _ _ _ E3 Hin) as (e & He & Hc).
    apply filter_In in He. destruct He as [He Hsel].
    destruct (condensed_name _ Hc) as (n & Hn' & Heq).
    exact (Hlast e n He Hsel Hn' (eq_sym Heq)). }
  exists r2. repeat split; try assumption.
  - now apply parseCondition_condensed.
  - apply wf_count_occ.
    + subst m. apply insert_all_wf. constructor.
    + apply dict_get_in in Hget. unfold keys.
      change (lower n2) with (fst (lower n2, r2)). now apply in_map.
Qed.

(** C7.  A child [e] of the root that [isCondition] accepts and whose name,
    code or alias path cannot be followed to the end (an element of the path
    is not there, or the text to lowercase is [None]; the code leaf of an
    accepted child is always there): [parseCondition]
    prints the diagnostic of the first block that fails and ends in
    [SystemExit]; [parseFile] then does not return and its trace holds no
    [json.dump], whatever the children before [e] did; and when the loop over
    the children before [e] returns, [parseFile] ends in [SystemExit] with
    that diagnostic as its last line. *)
Theorem condense_failure_is_fatal (inputFile : string) (root : Element)
        (pre post : list Element) (e : Element) :
  children root = pre ++ e :: post ->
  selected e = true ->
  name_text e = None \/ code_leaf e = None \/ alias_texts e = None ->
  MeSHParser.parseCondition lower e =
    ([Stdout (failure_message e)], SystemExit) /\
  (name_text e = None -> failure_message e = MeSHParser.term_error) /\
  (name_text e <> None ->
   failure_message e = MeSHParser.entry_terms_error) /\
  (forall tr o, MeSHParser.parseFile lower inputFile (Some root) = (tr, o) ->
                o <> Return tt /\ writes tr = []) /\
  (forall trp d,
     MeSHParser.buildMapping lower (with_children root pre) = (trp, Return d) ->
     MeSHParser.parseFile lower inputFile (Some root) =
       (trp ++ [Stdout (failure_message e)], SystemExit)).
Proof.
  intros Hch Hsel Hbad.
  destruct (selected_code_leaf e Hsel) as (lf & c & s & Hl & _ & _).
  assert (Hc : condensed lower e = None).
  { unfold condensed. destruct Hbad as [->|[Hbad| ->]].
    - reflexivity.
    - congruence.
    - destruct (name_text e); [|reflexivity]. now rewrite Hl. }
  split; [now apply parseCondition_failure|].
  split; [intros Hn; unfold failure_message; now rewrite Hn|].
  split.
  { intros Hn; unfold failure_message. rewrite Hl.
    destruct (name_text e); [reflexivity|congruence]. }
  split.
  - intros tr o. rewrite parseFile_eq. unfold MeSHParser.buildMapping.
    pose proof (loop_trace (fun ev => is_write ev = false) (children root) []
                  eq_refl eq_refl eq_refl) as HF.
    destruct (for_each (children root) (MeSHParser.loop_body lower) [])
      as [tr0 [m| |]] eqn:E; simpl in *.
    + exfalso. refine (loop_not_return _ _ _ _ Hsel Hc E).
      rewrite Hch. apply in_elt.
    + intros H; inversion H; subst. split; [discriminate|now apply writes_nil].
    + intros H; inversion H; subst. split; [discriminate|now apply writes_nil].
  - intros trp d. rewrite parseFile_eq. unfold MeSHParser.buildMapping.
    simpl. intros Hpre. rewrite Hch, for_each_app, Hpre. simpl.
    now rewrite (@loop_body_fatal e d Hsel Hc).
Qed.

(** ** The expander *)

Lemma dict_get_key {V : Type} (d : dict V) (k : string) :
  In k (keys d) -> exists v, dict_get d k = Some v.
Proof.
  induction d as [|[k0 v0] d IH]; simpl; [intros []|].
  destruct (String.eqb k k0) eqn:E; [eauto|].
  intros [<-|Hin]; [|auto].
  now rewrite String.eqb_refl in E.
Qed.

(** The loop over the aliases of one term: the row object keeps its
    ["term"] and gets a new ["alias"] before each [writerow]. *)
Lemma alias_loop (aliases : list string) (row : dict string) (t : string) :
  dict_get row "term" = Some t ->
  exists row',
    for_each aliases (fun alias row =>
      bind (JSONMeSHAliasParser.writerow (dict_set row "alias" alias))
           (fun _ => ret (dict_set row "alias" alias))) row =
    (map (fun a => WriteRow {| alias := a; term := t |}) aliases,
     Return row').
Proof.
  revert row; induction aliases as [|a aliases IH]; intros row Ht.
  - now exists row.
  - assert (Ht' : dict_get (dict_set row "alias" a) "term" = Some t).
    { rewrite dict_get_set_other; [assumption|discriminate]. }
    destruct (IH _ Ht') as (row' & E).
    exists row'. cbn [for_each].
    unfold JSONMeSHAliasParser.writerow at 1, JSONMeSHAliasParser.field.
    rewrite dict_get_set_same, Ht'.
    unfold emit, ret at 1, bind at 2. cbn [app].
    unfold bind at 1. rewrite E. reflexivity.
Qed.

Lemma expand_loop (data : dict Record_) (ks : list string) :
  (forall k, In k ks -> exists r, dict_get data k = Some r) ->
  for_each ks (fun term _ =>
    let row := dict_set [] "term" term in
    bind (JSONMeSHAliasParser.subscript data term) (fun record =>
    bind (for_each (entry_terms record) (fun alias row =>
            let row := dict_set row "alias" alias in
            bind (JSONMeSHAliasParser.writerow row) (fun _ => ret row)) row)
         (fun _ => ret tt))) tt =
  (map WriteRow (rows_by_key data ks), Return tt).
Proof.
  induction ks as [|k ks IH]; intros Hks; [reflexivity|].
  cbn [for_each]. cbv zeta. cbv zeta in IH.
  destruct (Hks k (or_introl eq_refl)) as (r & Hr).
  unfold JSONMeSHAliasParser.subscript at 1. rewrite Hr, bind_ret_l.
  destruct (alias_loop (entry_terms r) (dict_set [] "term" k) (t := k))
    as (row' & Hrow); [reflexivity|].
  rewrite Hrow, bind_Return. unfold ret at 1 2. cbn [fst snd].
  rewrite bind_Return.
  rewrite IH by (intros; apply Hks; now right).
  unfold rows_by_key; simpl.
  rewrite Hr, map_app, app_nil_r, map_map. reflexivity.
Qed.

Lemma expand_by_key (data : dict Record_) :
  JSONMeSHAliasParser.expand data =
  (map WriteRow (rows_by_key data (keys data)), Return tt).
Proof.
  unfold JSONMeSHAliasParser.expand. apply expand_loop.
  intros k; apply dict_get_key.
Qed.

Lemma rows_by_key_sub (data sub : dict Record_) :
  (forall k r, In (k, r) sub -> dict_get data k = Some r) ->
  rows_by_key data (keys sub) = rows_of sub.
Proof.
  induction sub as [|[k r] sub IH]; intros Hsub; [reflexivity|].
  unfold rows_by_key, rows_of in *; simpl.
  rewrite (Hsub k r) by now left.
  rewrite IH by (intros; apply Hsub; now right). reflexivity.
Qed.

Lemma expand_eq (data : dict Record_) :
  dict_wf data ->
  JSONMeSHAliasParser.expand data = (map WriteRow (rows_of data), Return tt).
Proof.
  intros Hwf. rewrite expand_by_key, rows_by_key_sub; [reflexivity|].
  intros k r; now apply dict_in_get.
Qed.

Lemma rows_of_in (data : dict Record_) (row : AliasRow) :
  In row (rows_of data) <->
  exists r, In (term row, r) data /\ In (alias row) (entry_terms r).
Proof.
  unfold rows_of; rewrite in_flat_map; split.
  - intros ([k r] & Hin & Hrow); simpl in Hrow.
    apply in_map_iff in Hrow. destruct Hrow as (a & <- & Ha). simpl. eauto.
  - intros (r & Hin & Ha). exists (term row, r). split; [assumption|].
    simpl. apply in_map_iff. exists (alias row). now destruct row.
Qed.

Lemma rows_of_length (data : dict Record_) :
  List.length (rows_of data) =
  list_sum (map (fun kv => List.length (entry_terms (snd kv))) data).
Proof.
  unfold rows_of; induction data as [|[k r] data IH]; simpl; [reflexivity|].
  now rewrite List.length_app, List.length_map, IH.
Qed.

(** C3.  For a mapping (a dictionary, its keys distinct), the lines 43-48 of
    the expander's [parseFile] return after writing exactly the rows
    [(alias, term)] of the mapping, term by term in the order of the keys
    and, for each term, alias by alias in the order of [entry_terms]; a term
    whose [entry_terms] is empty has no row; and a row whose alias is its
    own term exists only when the term is in its own [entry_terms]. *)
Theorem expand_rows (inputFile : string) (data : dict Record_) :
  dict_wf data ->
  JSONMeSHAliasParser.parseFile inputFile (JSONMeSHAliasParser.Json data) =
    (map WriteRow (rows_of data), Return tt) /\
  (forall t r, In (t, r) data -> entry_terms r = [] ->
     forall row, In row (rows_of data) -> term row <> t) /\
  (forall row, In row (rows_of data) -> alias row = term row ->
     exists r, dict_get data (term row) = Some r /\
               In (term row) (entry_terms r)).
Proof.
  intros Hwf. split; [now apply expand_eq|]. split.
  - intros t r Hin Hnil row Hrow Ht.
    apply rows_of_in in Hrow. destruct Hrow as (r' & Hin' & Ha).
    rewrite Ht in Hin'.
    pose proof (@dict_in_get _ data t r Hwf Hin) as G.
    pose proof (@dict_in_get _ data t r' Hwf Hin') as G'.
    rewrite G in G'. inversion G'; subst r'.
    rewrite Hnil in Ha. destruct Ha.
  - intros row Hrow Heq.
    apply rows_of_in in Hrow. destruct Hrow as (r & Hin & Ha).
    exists r. split; [now apply dict_in_get|]. now rewrite <- Heq.
Qed.

(** C4.  For a mapping (a dictionary, its keys distinct), the trace of the
    expander is made of row writes only, and their number is the sum over the
    records of the mapping of the length of [entry_terms]. *)
Theorem expand_cardinality (data : dict Record_) :
  dict_wf data ->
  Forall (fun ev => exists row, ev = WriteRow row)
         (fst (JSONMeSHAliasParser.expand data)) /\
  List.length (fst (JSONMeSHAliasParser.expand data)) =
    list_sum (map (fun kv => List.length (entry_terms (snd kv))) data).
Proof.
  intros Hwf. rewrite expand_eq by assumption. simpl. split.
  - apply Forall_forall. intros ev Hin. apply in_map_iff in Hin.
    destruct Hin as (row & <- & _). now exists row.
  - now rewrite List.length_map, rows_of_length.
Qed.

(** * Further properties of the two scripts *)

(** ** When the loop of [parseFile] returns *)

Lemma loop_processable (es : list Element) (d : dict Record_) :
  forallb (processable lower) es = true ->
  exists ps,
    all_some (map (condensed lower) (filter selected es)) = Some ps /\
    for_each es (MeSHParser.loop_body lower) d =
      (skip_lines es, Return (insert_all ps d)).
Proof.
  revert d; induction es as [|e es IH]; intros d; simpl.
  - intros _. now exists [].
  - intros H; apply andb_true_iff in H; destruct H as [He Hes].
    rewrite loop_body_eq. unfold skip_lines; simpl.
    replace (selected e) with
      (match code_leaf e with
       | Some leaf =>
           match text leaf with
           | Some (String c _) => Ascii.eqb c "C"%char
           | _ => false
           end
       | None => false
       end) by reflexivity.
    unfold has_code_leaf at 1. unfold processable in He.
    destruct (code_leaf e) as [lf|]; simpl.
    + destruct (text lf) as [[|c s]|]; try discriminate.
      destruct (Ascii.eqb c "C"%char); simpl.
      * destruct (condensed lower e) as [p|]; [|discriminate].
        destruct (IH (dict_set d (fst p) (snd p)) Hes) as (ps & Hps & Hrun).
        exists (p :: ps). rewrite Hps. try rewrite bind_Return.
        rewrite Hrun. auto.
      * destruct (IH d Hes) as (ps & Hps & Hrun).
        exists ps. try rewrite bind_Return. rewrite Hrun. auto.
    + destruct (IH d Hes) as (ps & Hps & Hrun).
      exists ps. try rewrite bind_Return. rewrite Hrun. auto.
Qed.

Lemma loop_returns_processable (es : list Element) (d : dict Record_)
      (tr : list event) (m : dict Record_) :
  for_each es (MeSHParser.loop_body lower) d = (tr, Return m) ->
  forallb (processable lower) es = true.
Proof.
  revert d tr m; induction es as [|e es IH]; intros d tr m; simpl.
  - reflexivity.
  - rewrite loop_body_eq. unfold processable at 1.
    destruct (code_leaf e) as [lf|]; simpl.
    + destruct (text lf) as [[|c s]|]; simpl; try discriminate.
      destruct (Ascii.eqb c "C"%char); simpl.
      * destruct (condensed lower e) as [p|]; simpl; [|discriminate].
        destruct (for_each es (MeSHParser.loop_body lower)
                    (dict_set d (fst p) (snd p)))
          as [tr' o] eqn:E.
        intros H; inversion H; subst. exact (IH _ _ _ E).
      * destruct (for_each es (MeSHParser.loop_body lower) d) as [tr' o] eqn:E.
        intros H; inversion H; subst. exact (IH _ _ _ E).
    + destruct (for_each es (MeSHParser.loop_body lower) d) as [tr' o] eqn:E.
      intros H; inversion H; subst. exact (IH _ _ _ E).
Qed.

Lemma loop_raises (es : list Element) (d : dict Record_) (x : exn) :
  snd (for_each es (MeSHParser.loop_body lower) d) = Raise x ->
  exists e lf,
    In e es /\ code_leaf e = Some lf /\
    ((text lf = None /\ x = TypeError) \/
     (text lf = Some "" /\ x = IndexError)).
Proof.
  revert d; induction es as [|e es IH]; intros d; simpl; [discriminate|].
  rewrite loop_body_eq.
  assert (Hrest : forall d' tr0,
            snd (bind (tr0, Return d')
                      (for_each es (MeSHParser.loop_body lower)))
              = Raise x ->
            exists e0 lf, In e0 (e :: es) /\ code_leaf e0 = Some lf /\
              ((text lf = None /\ x = TypeError) \/
               (text lf = Some "" /\ x = IndexError))).
  { intros d' tr0. rewrite bind_Return; simpl. intros H.
    destruct (IH d' H) as (e0 & lf & Hin & Hrest). exists e0, lf. auto. }
  destruct (code_leaf e) as [lf|] eqn:El; [|apply Hrest].
  destruct (text lf) as [[|c s]|] eqn:Et.
  - simpl. intros H; inversion H; subst. exists e, lf. auto.
  - destruct (Ascii.eqb c "C"%char); [|apply Hrest].
    destruct (condensed lower e); [apply Hrest|discriminate].
  - simpl. intros H; inversion H; subst. exists e, lf. auto.
Qed.

Lemma writes_skip_lines (es : list Element) : writes (skip_lines es) = [].
Proof.
  apply writes_nil. unfold skip_lines. apply Forall_forall.
  intros ev Hin. apply in_map_iff in Hin. now destruct Hin as (e & <- & _).
Qed.

(** X1.  [parseFile] on a document that could be read returns exactly when
    every child of the root is one the loop gets past: a child without a code
    leaf, a child whose code has a first character other than [C], or an
    accepted child all of whose paths can be followed. *)
Theorem parseFile_returns_iff (inputFile : string) (root : Element) :
  snd (MeSHParser.parseFile lower inputFile (Some root)) = Return tt <->
  forallb (processable lower) (children root) = true.
Proof.
  rewrite parseFile_eq. unfold MeSHParser.buildMapping. split.
  - destruct (for_each (children root) (MeSHParser.loop_body lower) [])
      as [tr [m| |]] eqn:E; simpl; try discriminate.
    intros _. exact (loop_returns_processable _ _ E).
  - intros H. destruct (@loop_processable _ [] H) as (ps & _ & ->).
    reflexivity.
Qed.

(** X2.  [parseFile] writes all or nothing: either the document was read,
    the loop returned a mapping, and the run prints one line per child
    without a code leaf and then hands that mapping to [json.dump], once, as
    its last effect; or the run does not return and nothing was handed to
    [json.dump]. *)
Theorem parseFile_all_or_nothing (inputFile : string)
        (tree : option Element) :
  (exists root m,
     tree = Some root /\
     MeSHParser.buildMapping lower root =
       (skip_lines (children root), Return m) /\
     MeSHParser.parseFile lower inputFile tree =
       (skip_lines (children root) ++ [JsonDump m], Return tt)) \/
  (snd (MeSHParser.parseFile lower inputFile tree) <> Return tt /\
   writes (fst (MeSHParser.parseFile lower inputFile tree)) = []).
Proof.
  destruct tree as [root|]; [|right; split; [discriminate|reflexivity]].
  rewrite parseFile_eq. unfold MeSHParser.buildMapping.
  pose proof (loop_trace (fun ev => is_write ev = false) (children root) []
                eq_refl eq_refl eq_refl) as HF.
  destruct (for_each (children root) (MeSHParser.loop_body lower) [])
    as [tr [m| |]] eqn:E; simpl in *.
  - left. exists root, m.
    destruct (loop_returns _ _ E) as (ps & _ & _ & ->). auto.
  - right. split; [discriminate|now apply writes_nil].
  - right. split; [discriminate|now apply writes_nil].
Qed.

(** X3.  An exception leaves [parseFile] only through [code[0]] in
    [isCondition]: the document was read and some child of the root has a
    code leaf whose text is [None] ([TypeError]) or the empty string
    ([IndexError]).  No [AttributeError] of the path lookups and no error of
    [ET.parse] gets out. *)
Theorem parseFile_escaping_exception (inputFile : string)
        (tree : option Element) (x : exn) :
  snd (MeSHParser.parseFile lower inputFile tree) = Raise x ->
  exists root e lf,
    tree = Some root /\ In e (children root) /\ code_leaf e = Some lf /\
    ((text lf = None /\ x = TypeError) \/
     (text lf = Some "" /\ x = IndexError)).
Proof.
  destruct tree as [root|]; [|discriminate].
  rewrite parseFile_eq. unfold MeSHParser.buildMapping. intros H.
  destruct (for_each (children root) (MeSHParser.loop_body lower) [])
    as [tr o] eqn:E.
  assert (Ho : o = Raise x) by (destruct o; simpl in H; congruence).
  subst o.
  destruct (@loop_raises (children root) [] x) as (e & lf & Hin & Hrest).
  { now rewrite E. }
  exists root, e, lf. auto.
Qed.

(** X4.  [parseCondition] lets no exception out and never returns after a
    diagnostic: it either returns a pair without printing, or prints one of
    its three diagnostics and ends in [SystemExit]. *)
Theorem parseCondition_returns_or_exits (e : Element) :
  (exists p, MeSHParser.parseCondition lower e = ([], Return p)) \/
  (exists msg,
     MeSHParser.parseCondition lower e = ([Stdout msg], SystemExit) /\
     In msg [MeSHParser.term_error; MeSHParser.code_error;
             MeSHParser.entry_terms_error]).
Proof.
  rewrite parseCondition_eq.
  destruct (name_text e); [|right; eexists; split; [reflexivity|simpl; auto]].
  destruct (code_leaf e); [|right; eexists; split; [reflexivity|simpl; auto]].
  destruct (alias_texts e); [|right; eexists; split; [reflexivity|simpl; auto]].
  left. eauto.
Qed.

(** ** What the mapping holds *)

Lemma all_some_length {A : Type} (os : list (option A)) (l : list A) :
  all_some os = Some l -> List.length l = List.length os.
Proof.
  revert l; induction os as [|[a|] os IH]; simpl; intros l H.
  - now inversion H.
  - destruct (all_some os) as [l'|]; [|discriminate].
    inversion H; subst; simpl. now rewrite (IH l' eq_refl).
  - discriminate.
Qed.

Lemma dict_set_length {V : Type} (d : dict V) (k : string) (v : V) :
  List.length (dict_set d k v) <= S (List.length d).
Proof.
  induction d as [|[k0 v0] d IH]; simpl; [lia|].
  destruct (String.eqb k k0); simpl; lia.
Qed.

Lemma insert_all_length {V : Type} (ps : list (string * V)) (d : dict V) :
  List.length (insert_all ps d) <= List.length d + List.length ps.
Proof.
  unfold insert_all.
  revert d; induction ps as [|p ps IH]; intros d; simpl; [lia|].
  specialize (IH (dict_set d (fst p) (snd p))).
  pose proof (dict_set_length d (fst p) (snd p)). lia.
Qed.

Lemma keys_insert_all_in {V : Type} (ps : list (string * V)) (d : dict V)
      (k : string) :
  In k (keys (insert_all ps d)) <-> In k (keys d) \/ In k (map fst ps).
Proof.
  revert d; induction ps as [|p ps IH]; intros d; simpl; [tauto|].
  fold (insert_all ps (dict_set d (fst p) (snd p))).
  rewrite IH, keys_set_in. intuition auto.
Qed.

Lemma keys_dict_set {V : Type} (d : dict V) (k : string) (v : V) :
  keys (dict_set d k v) =
  if in_dec string_dec k (keys d) then keys d else keys d ++ [k].
Proof.
  induction d as [|[k0 v0] d IH]; simpl; [reflexivity|].
  destruct (String.eqb k k0) eqn:E; simpl.
  - apply String.eqb_eq in E; subst k0.
    destruct (string_dec k k); [reflexivity|congruence].
  - apply String.eqb_neq in E.
    destruct (string_dec k0 k) as [E'|E']; [congruence|].
    fold (keys d). fold (keys (dict_set d k v)). rewrite IH.
    now destruct (in_dec string_dec k (keys d)).
Qed.

Lemma first_occurrences_ext (s1 s2 l : list string) :
  (forall x, In x s1 <-> In x s2) ->
  first_occurrences s1 l = first_occurrences s2 l.
Proof.
  revert s1 s2; induction l as [|x l IH]; intros s1 s2 H; simpl;
    [reflexivity|].
  destruct (in_dec string_dec x s1) as [H1|H1],
           (in_dec string_dec x s2) as [H2|H2].
  - now apply IH.
  - exfalso; apply H2, H, H1.
  - exfalso; apply H1, H, H2.
  - f_equal. apply IH. intros y; simpl. rewrite H. tauto.
Qed.

Lemma keys_insert_all {V : Type} (ps : list (string * V)) (d : dict V) :
  keys (insert_all ps d) = keys d ++ first_occurrences (keys d) (map fst ps).
Proof.
  revert d; induction ps as [|[k v] ps IH]; intros d; simpl.
  - now rewrite app_nil_r.
  - fold (insert_all ps (dict_set d k v)). rewrite IH, keys_dict_set.
    destruct (in_dec string_dec k (keys d)) as [Hin|Hin]; [reflexivity|].
    rewrite <- app_assoc; simpl. do 2 f_equal.
    apply first_occurrences_ext. intros x. rewrite in_app_iff; simpl. tauto.
Qed.

(** What [loop_returns] gives for the whole document. *)
Lemma mapping_pairs (root : Element) (tr : list event) (m : dict Record_) :
  MeSHParser.buildMapping lower root = (tr, Return m) ->
  exists ps,
    all_some (map (condensed lower) (filter selected (children root)))
      = Some ps /\
    m = insert_all ps [].
Proof.
  unfold MeSHParser.buildMapping; intros H.
  destruct (loop_returns _ _ H) as (ps & Hps & Hm & _). eauto.
Qed.

Lemma mapping_pair_origin (root : Element) (tr : list event)
      (m : dict Record_) (t : string) (r : Record_) :
  MeSHParser.buildMapping lower root = (tr, Return m) -> In (t, r) m ->
  exists e, In e (children root) /\ selected e = true /\
            condensed lower e = Some (t, r).
Proof.
  intros H Hin. destruct (mapping_pairs _ H) as (ps & Hps & ->).
  apply insert_all_in in Hin. destruct Hin as [Hin|[]].
  destruct (all_some_map_in _ _ (t, r) Hps Hin) as (e & He & Hc).
  apply filter_In in He. destruct He as [He Hsel]. eauto.
Qed.

(** X5.  Every term and every alias of the mapping that [buildMapping]
    returns is a result of [str.lower]; [str.lower] being idempotent, it is
    in lower case: lowercasing it again changes nothing. *)
Theorem mapping_text_is_lowercase (root : Element) (tr : list event)
        (m : dict Record_) (t : string) (r : Record_) :
  MeSHParser.buildMapping lower root = (tr, Return m) -> In (t, r) m ->
  (exists s, t = lower s) /\
  Forall (fun a => exists s, a = lower s) (entry_terms r) /\
  ((forall s, lower (lower s) = lower s) ->
   lower t = t /\ Forall (fun a => lower a = a) (entry_terms r)).
Proof.
  intros H Hin.
  destruct (mapping_pair_origin _ _ _ H Hin) as (e & _ & _ & Hc).
  revert Hc. unfold condensed.
  destruct (name_text e) as [name|]; [|discriminate].
  destruct (code_leaf e); [|discriminate].
  destruct (alias_texts e) as [raw|]; [|discriminate].
  intros Hc; inversion Hc; subst; simpl.
  split; [eauto|]. split; [|intros Hll; split; [apply Hll|]].
  - apply Forall_forall. intros a Ha. apply in_map_iff in Ha.
    destruct Ha as (a0 & <- & _). eauto.
  - apply Forall_forall. intros a Ha. apply in_map_iff in Ha.
    destruct Ha as (a0 & <- & _). apply Hll.
Qed.

(** X6.  Every record of the mapping that [buildMapping] returns has a
    [mesh_code] that is a string starting with [C]; it is never [None]. *)
Theorem mapping_codes_have_marker (root : Element) (tr : list event)
        (m : dict Record_) (t : string) (r : Record_) :
  MeSHParser.buildMapping lower root = (tr, Return m) -> In (t, r) m ->
  exists s, mesh_code r = Some (String "C"%char s).
Proof.
  intros H Hin.
  destruct (mapping_pair_origin _ _ _ H Hin) as (e & _ & Hsel & Hc).
  destruct (selected_code_leaf e Hsel) as (lf & c & s & Hl & Ht & Hm).
  apply Ascii.eqb_eq in Hm; subst c.
  revert Hc. unfold condensed. rewrite Hl.
  destruct (name_text e); [|discriminate].
  destruct (alias_texts e); [|discriminate].
  intros Hc; inversion Hc; subst; simpl. eauto.
Qed.

(** X7.  The mapping that [buildMapping] returns has pairwise distinct keys
    and at most as many records as the root has accepted children; with no
    accepted child it is empty. *)
Theorem mapping_size (root : Element) (tr : list event) (m : dict Record_) :
  MeSHParser.buildMapping lower root = (tr, Return m) ->
  dict_wf m /\
  List.length m <= List.length (filter selected (children root)) /\
  (filter selected (children root) = [] -> m = []).
Proof.
  intros H. destruct (mapping_pairs _ H) as (ps & Hps & ->).
  split; [apply insert_all_wf; constructor|].
  pose proof (insert_all_length ps []) as Hlen.
  apply all_some_length in Hps. rewrite length_map in Hps.
  split; [simpl in Hlen; lia|].
  intros Hnil. rewrite Hnil in Hps; simpl in Hps.
  destruct ps; [reflexivity|discriminate].
Qed.

(** X8.  The keys of the mapping that [buildMapping] returns are the terms of
    the accepted children in document order, each at the place of its first
    occurrence: a term assigned again keeps its place. *)
Theorem mapping_key_order (root : Element) (tr : list event)
        (m : dict Record_) :
  MeSHParser.buildMapping lower root = (tr, Return m) ->
  exists ps,
    all_some (map (condensed lower) (filter selected (children root)))
      = Some ps /\
    keys m = first_occurrences [] (map fst ps).
Proof.
  intros H. destruct (mapping_pairs _ H) as (ps & Hps & ->).
  exists ps. split; [assumption|]. now rewrite keys_insert_all.
Qed.

(** X9.  No accepted child is lost: when [buildMapping] returns, the
    lowercased name of every accepted child of the root is a key of the
    mapping. *)
Theorem selected_entries_all_present (root : Element) (tr : list event)
        (m : dict Record_) (e : Element) :
  MeSHParser.buildMapping lower root = (tr, Return m) ->
  In e (children root) -> selected e = true ->
  exists name r,
    name_text e = Some name /\ dict_get m (lower name) = Some r.
Proof.
  intros H Hin Hsel. destruct (mapping_pairs _ H) as (ps & Hps & ->).
  assert (Hf : In e (filter selected (children root)))
    by (apply filter_In; auto).
  destruct (condensed lower e) as [[t r0]|] eqn:Ec.
  - destruct (condensed_name _ Ec) as (name & Hn & ->).
    assert (Hp : In (lower name, r0) ps).
    { clear - Hps Hf Ec. revert ps Hps.
      induction (filter selected (children root)) as [|x xs IH]; simpl;
        intros ps Hps; [destruct Hf|].
      destruct (condensed lower x) as [p|] eqn:Ex; [|discriminate].
      destruct (all_some (map (condensed lower) xs)) as [qs|]; [|discriminate].
      inversion Hps; subst. destruct Hf as [->|Hf].
      - left. congruence.
      - right. now apply IH. }
    destruct (@dict_get_key _ (insert_all ps []) (lower name)) as (r & Hr).
    { apply keys_insert_all_in. right.
      change (lower name) with (fst (lower name, r0)). now apply in_map. }
    eauto.
  - now rewrite (all_some_map_None (condensed lower) _ e Hf Ec) in Hps.
Qed.

(** ** Which elements are read *)

(** X10.  Only the first [TreeNumber] counts.  When the first child of the
    first [TreeNumberList] is a [TreeNumber] with a non-empty text,
    [isCondition] answers by the first character of that text, and the
    [mesh_code] of what [parseCondition] returns is that text, whatever
    tree numbers follow it. *)
Theorem first_tree_number_decides (e lst first : Element)
        (rest : list Element) (c : ascii) (s : string) :
  find e "TreeNumberList" = Some lst ->
  children lst = first :: rest ->
  tag first = "TreeNumber" ->
  text first = Some (String c s) ->
  MeSHParser.isCondition e = ([], Return (Ascii.eqb c "C"%char)) /\
  (forall tr t r,
     MeSHParser.parseCondition lower e = (tr, Return (t, r)) ->
     mesh_code r = Some (String c s)).
Proof.
  intros Hl Hch Htag Ht.
  assert (Hleaf : code_leaf e = Some first).
  { unfold code_leaf. rewrite Hl. unfold find. rewrite Hch; simpl.
    now rewrite Htag. }
  split.
  - now rewrite isCondition_eq, Hleaf, Ht.
  - intros tr t r H. apply parseCondition_condensed in H.
    destruct H as [_ H]. revert H. unfold condensed. rewrite Hleaf.
    destruct (name_text e); [|discriminate].
    destruct (alias_texts e); [|discriminate].
    intros H; inversion H; subst; simpl. exact Ht.
Qed.

Lemma concat_texts_length (concepts : list Element)
      (raws : list (list string)) :
  all_some (map concept_texts concepts) = Some raws ->
  List.length (List.concat raws) = list_sum (map count_terms concepts).
Proof.
  revert raws; induction concepts as [|c cs IH]; simpl; intros raws H.
  - now inversion H.
  - destruct (concept_texts c) as [raw|] eqn:Ec; [|discriminate].
    destruct (all_some (map concept_texts cs)) as [raws'|]; [|discriminate].
    inversion H; subst; simpl.
    rewrite length_app, (IH raws' eq_refl). f_equal.
    revert Ec. unfold concept_texts, count_terms.
    destruct (find c "TermList") as [termList|]; [|discriminate].
    intros Ec. apply all_some_length in Ec. now rewrite length_map in Ec.
Qed.

(** X11.  When [parseCondition] returns, [entry_terms] has one element for
    every [Term] of every [TermList] of every [Concept] of the
    [ConceptList]: no term is dropped and none is merged with an equal
    one. *)
Theorem entry_terms_count (e : Element) (tr : list event) (t : string)
        (r : Record_) :
  MeSHParser.parseCondition lower e = (tr, Return (t, r)) ->
  exists conceptList,
    find e "ConceptList" = Some conceptList /\
    List.length (entry_terms r) =
      list_sum (map count_terms (findall conceptList "Concept")).
Proof.
  intros H. apply parseCondition_condensed in H. destruct H as [_ H].
  revert H. unfold condensed, alias_texts.
  destruct (name_text e); [|discriminate].
  destruct (code_leaf e); [|discriminate].
  destruct (find e "ConceptList") as [conceptList|]; [|discriminate].
  destruct (all_some (map concept_texts (findall conceptList "Concept")))
    as [raws|] eqn:Er; [|discriminate].
  simpl. intros H; inversion H; subst; simpl.
  exists conceptList. split; [reflexivity|].
  rewrite length_map. now apply concat_texts_length.
Qed.

(** ** The expander's columns, and the expander after the condenser *)

Lemma written_rows_map (rows : list AliasRow) :
  written_rows (map WriteRow rows) = rows.
Proof.
  unfold written_rows. induction rows as [|row rows IH]; simpl;
    [reflexivity|]. now rewrite IH.
Qed.

(** X12.  For a mapping (distinct keys), the alias column of the rows
    written is the concatenation of the [entry_terms] of the records in key
    order, repeated aliases included, and the term column repeats each key
    once per alias. *)
Theorem expand_columns (data : dict Record_) :
  dict_wf data ->
  map alias (written_rows (fst (JSONMeSHAliasParser.expand data))) =
    flat_map (fun kv => entry_terms (snd kv)) data /\
  map term (written_rows (fst (JSONMeSHAliasParser.expand data))) =
    flat_map (fun kv => repeat (fst kv) (List.length (entry_terms (snd kv))))
             data.
Proof.
  intros Hwf. rewrite expand_eq by assumption. simpl.
  rewrite written_rows_map. unfold rows_of.
  induction data as [|[k r] data IH]; simpl; [auto|].
  assert (Hwf' : dict_wf data) by (now inversion Hwf).
  destruct (IH Hwf') as [IHa IHt].
  rewrite !map_app, IHa, IHt, !map_map; simpl. split; f_equal.
  - apply map_id.
  - clear. induction (entry_terms r) as [|a l IHl]; simpl; [reflexivity|].
    now rewrite IHl.
Qed.

(** X13.  The two scripts one after the other.  When [buildMapping] returns
    a mapping, the expander run on that mapping returns after writing
    exactly its rows; every row comes from an accepted child of the root,
    its term being the child's lowercased name and its alias one of the
    child's lowercased term texts; and, [str.lower] being idempotent, every
    row is in lower case on both sides. *)
Theorem condense_then_expand (inputFile : string) (root : Element)
        (tr : list event) (m : dict Record_) :
  MeSHParser.buildMapping lower root = (tr, Return m) ->
  JSONMeSHAliasParser.parseFile inputFile (JSONMeSHAliasParser.Json m) =
    (map WriteRow (rows_of m), Return tt) /\
  (forall row, In row (rows_of m) ->
     (exists e name raw,
        In e (children root) /\ selected e = true /\
        name_text e = Some name /\ term row = lower name /\
        alias_texts e = Some raw /\ In (alias row) (map lower raw)) /\
     ((forall s, lower (lower s) = lower s) ->
      lower (alias row) = alias row /\ lower (term row) = term row)).
Proof.
  intros H.
  assert (Hwf : dict_wf m).
  { destruct (mapping_pairs _ H) as (ps & _ & ->).
    apply insert_all_wf. constructor. }
  split; [now apply expand_eq|].
  intros row Hrow. apply rows_of_in in Hrow.
  destruct Hrow as (r & Hin & Ha).
  destruct (mapping_pair_origin _ _ _ H Hin) as (e & He & Hsel & Hc).
  revert Hc. unfold condensed.
  destruct (name_text e) as [name|] eqn:En; [|discriminate].
  destruct (code_leaf e); [|discriminate].
  destruct (alias_texts e) as [raw|] eqn:Ea; [|discriminate].
  intros Hc; injection Hc as Ht Hr. rewrite <- Hr in Ha; simpl in Ha.
  split; [|intros Hll; split].
  - exists e, name, raw. repeat split; auto.
  - apply in_map_iff in Ha. destruct Ha as (a0 & <- & _). apply Hll.
  - rewrite <- Ht. apply Hll.
Qed.

End Properties.

(** * The sample documents

    The texts of the sample documents are made of ASCII characters, where
    [str.lower] is [ascii_lower]. *)

Lemma ascii_lower_empty (s : string) : ascii_lower s = "" -> s = "".
Proof. destruct s; [reflexivity|discriminate]. Qed.

Lemma lower_ascii_idempotent (c : ascii) :
  lower_ascii (lower_ascii c) = lower_ascii c.
Proof.
  destruct c as [[] [] [] [] [] [] [] []]; reflexivity.
Qed.

Lemma ascii_lower_idempotent (s : string) :
  ascii_lower (ascii_lower s) = ascii_lower s.
Proof.
  induction s as [|c s IH]; simpl.
  - reflexivity.
  - now rewrite lower_ascii_idempotent, IH.
Qed.

Lemma to_lower_full_ascii (c : ascii) :
  is_ascii c = true ->
  N.eqb (N_of_ascii c) Unicode.capital_sigma = false /\
  Unicode.to_lower_full (N_of_ascii c) = [N_of_ascii (lower_ascii c)].
Proof.
  destruct c as [[] [] [] [] [] [] [] []]; intros H;
    solve [discriminate H | vm_compute; split; reflexivity].
Qed.

(** On a text of ASCII characters [ascii_lower] is [str.lower]. *)
Lemma ascii_lower_is_lower (s : string) :
  all_ascii s = true ->
  code_points (ascii_lower s) = Unicode.lower (code_points s).
Proof.
  unfold Unicode.lower. generalize (@nil N) as before.
  induction s as [|c s IH]; intros before; simpl; [reflexivity|].
  intros H; apply andb_true_iff in H; destruct H as [Hc Hs].
  destruct (to_lower_full_ascii c Hc) as [Hsigma Hfull].
  rewrite Hsigma, Hfull. simpl. f_equal. now apply IH.
Qed.

Lemma lower_table_nonempty :
  forallb (fun kl => negb (Nat.eqb (List.length (snd kl)) 0))
          Unicode.lower_table = true.
Proof. vm_compute. reflexivity. Qed.

(** [str.lower] gives the empty text for the empty text only. *)
Lemma lower_nil (s : list N) : Unicode.lower s = [] -> s = [].
Proof.
  unfold Unicode.lower. destruct s as [|c s]; [reflexivity|]. simpl.
  destruct (N.eqb c Unicode.capital_sigma); [discriminate|].
  unfold Unicode.to_lower_full.
  destruct (Unicode.lookup c Unicode.lower_table) as [l|] eqn:E;
    [|discriminate].
  apply lookup_in in E.
  pose proof lower_table_nonempty as H. rewrite forallb_forall in H.
  specialize (H (c, l) E). destruct l; [discriminate|discriminate].
Qed.

Lemma buildMapping_only_selected_witness :
  MeSHParser.buildMapping ascii_lower (node "Set" [flu; codeless]) =
    ([Stdout MeSHParser.descriptor_error],
     Return [("flu", {| mesh_code := Some "C01.001";
                        entry_terms := ["influenza"; "grippe"] |})]) /\
  MeSHParser.buildMapping ascii_lower
    (with_children (node "Set" [flu; codeless])
       (filter selected (children (node "Set" [flu; codeless])))) =
    ([], Return [("flu", {| mesh_code := Some "C01.001";
                            entry_terms := ["influenza"; "grippe"] |})]).
Proof.
  split; [reflexivity|].
  apply (@buildMapping_only_selected ascii_lower (node "Set" [flu; codeless])
           [Stdout MeSHParser.descriptor_error] _).
  reflexivity.
Defined.

Lemma parseCondition_result_witness :
  MeSHParser.parseCondition ascii_lower flu =
    ([], Return ("flu", {| mesh_code := Some "C01.001";
                           entry_terms := ["influenza"; "grippe"] |})) /\
  exists name leaf conceptList raws,
    name_text flu = Some name /\ "flu" = ascii_lower name /\
    code_leaf flu = Some leaf /\ Some "C01.001" = text leaf /\
    find flu "ConceptList" = Some conceptList /\
    all_some (map concept_texts (findall conceptList "Concept")) = Some raws /\
    ["influenza"; "grippe"] = map ascii_lower (List.concat raws).
Proof.
  split; [reflexivity|].
  apply (@parseCondition_result ascii_lower flu [] _
           {| mesh_code := Some "C01.001";
              entry_terms := ["influenza"; "grippe"] |}).
  reflexivity.
Defined.

Lemma code_error_unreachable_witness :
  In flu (children flu_doc) /\
  MeSHParser.isCondition flu = ([], Return true) /\
  ~ In (Stdout MeSHParser.code_error)
       (fst (MeSHParser.buildMapping ascii_lower flu_doc)).
Proof.
  split; [now left|]. split; [reflexivity|].
  apply (@code_error_unreachable ascii_lower flu_doc flu []);
    [now left|reflexivity].
Defined.

Lemma mapping_terms_nonempty_witness :
  (forall s, ascii_lower s = "" -> s = "") /\
  texts_nonempty flu_doc = true /\
  MeSHParser.buildMapping ascii_lower flu_doc =
    ([], Return [("flu", {| mesh_code := Some "C01.001";
                            entry_terms := ["influenza"; "grippe"] |})]) /\
  "flu" <> "".
Proof.
  split; [exact ascii_lower_empty|].
  split; [reflexivity|]. split; [reflexivity|].
  apply (@mapping_terms_nonempty ascii_lower flu_doc []
           [("flu", {| mesh_code := Some "C01.001";
                       entry_terms := ["influenza"; "grippe"] |})]).
  - exact ascii_lower_empty.
  - reflexivity.
  - reflexivity.
  - now left.
Defined.

Lemma duplicate_term_last_wins_witness :
  MeSHParser.buildMapping ascii_lower (node "Set" [flu; codeless; flu_again]) =
    ([Stdout MeSHParser.descriptor_error],
     Return [("flu", {| mesh_code := Some "C08.730";
                        entry_terms := ["grippe"] |})]) /\
  exists r2,
    MeSHParser.parseCondition ascii_lower flu_again =
      ([], Return (ascii_lower "FLU", r2)) /\
    dict_get [("flu", {| mesh_code := Some "C08.730";
                         entry_terms := ["grippe"] |})] (ascii_lower "FLU")
      = Some r2 /\
    count_occ string_dec
      (keys [("flu", {| mesh_code := Some "C08.730";
                        entry_terms := ["grippe"] |})])
      (ascii_lower "FLU") = 1 /\
    [Stdout MeSHParser.descriptor_error] =
      skip_lines (children (node "Set" [flu; codeless; flu_again])).
Proof.
  split; [reflexivity|].
  apply (@duplicate_term_last_wins ascii_lower
           (node "Set" [flu; codeless; flu_again])
           _ _ [] [codeless] [] flu flu_again "Flu" "FLU");
    try reflexivity.
  intros e n [].
Defined.

Lemma condense_failure_is_fatal_witness :
  MeSHParser.parseFile ascii_lower "rawData.xml"
    (Some (node "Set" [flu; nameless; flu]))
    = ([Stdout MeSHParser.term_error], SystemExit) /\
  MeSHParser.parseCondition ascii_lower nameless =
    ([Stdout (failure_message nameless)], SystemExit).
Proof.
  split; [reflexivity|].
  apply (@condense_failure_is_fatal ascii_lower "rawData.xml"
           (node "Set" [flu; nameless; flu]) [flu] [flu] nameless);
    [reflexivity|reflexivity|now left].
Defined.

Lemma expand_rows_witness :
  dict_wf two_terms /\
  JSONMeSHAliasParser.parseFile "MeSHConditions.json"
    (JSONMeSHAliasParser.Json two_terms) =
    ([WriteRow {| alias := "influenza"; term := "flu" |};
      WriteRow {| alias := "grippe"; term := "flu" |}], Return tt).
Proof.
  assert (Hwf : dict_wf two_terms).
  { unfold dict_wf, two_terms; simpl.
    repeat constructor; simpl; intuition discriminate. }
  split; [exact Hwf|].
  exact (proj1 (expand_rows "MeSHConditions.json" Hwf)).
Defined.

Lemma expand_cardinality_witness :
  dict_wf two_terms /\
  List.length (fst (JSONMeSHAliasParser.expand two_terms)) = 2.
Proof.
  assert (Hwf : dict_wf two_terms).
  { unfold dict_wf, two_terms; simpl.
    repeat constructor; simpl; intuition discriminate. }
  split; [exact Hwf|].
  exact (proj2 (expand_cardinality Hwf)).
Defined.

Lemma parseFile_escaping_exception_witness :
  snd (MeSHParser.parseFile ascii_lower "rawData.xml"
         (Some (node "Set" [flu; textless_code]))) = Raise TypeError /\
  exists root e lf,
    Some (node "Set" [flu; textless_code]) = Some root /\
    In e (children root) /\ code_leaf e = Some lf /\
    ((text lf = None /\ TypeError = TypeError) \/
     (text lf = Some "" /\ TypeError = IndexError)).
Proof.
  split; [reflexivity|].
  apply (@parseFile_escaping_exception ascii_lower "rawData.xml"
           (Some (node "Set" [flu; textless_code])) TypeError).
  reflexivity.
Defined.

Lemma mapping_text_is_lowercase_witness :
  MeSHParser.buildMapping ascii_lower flu_doc =
    ([], Return [("flu", {| mesh_code := Some "C01.001";
                            entry_terms := ["influenza"; "grippe"] |})]) /\
  (exists s, "flu" = ascii_lower s) /\
  Forall (fun a => exists s, a = ascii_lower s) ["influenza"; "grippe"] /\
  ascii_lower "flu" = "flu" /\
  Forall (fun a => ascii_lower a = a) ["influenza"; "grippe"].
Proof.
  split; [reflexivity|].
  destruct (@mapping_text_is_lowercase ascii_lower flu_doc [] _ "flu"
              {| mesh_code := Some "C01.001";
                 entry_terms := ["influenza"; "grippe"] |}
              eq_refl (or_introl eq_refl)) as (Ht & Ha & Hfixed).
  exact (conj Ht (conj Ha (Hfixed ascii_lower_idempotent))).
Defined.

Lemma mapping_codes_have_marker_witness :
  MeSHParser.buildMapping ascii_lower flu_doc =
    ([], Return [("flu", {| mesh_code := Some "C01.001";
                            entry_terms := ["influenza"; "grippe"] |})]) /\
  exists s, Some "C01.001" = Some (String "C"%char s).
Proof.
  split; [reflexivity|].
  apply (@mapping_codes_have_marker ascii_lower flu_doc [] _ "flu"
           {| mesh_code := Some "C01.001";
              entry_terms := ["influenza"; "grippe"] |} eq_refl).
  now left.
Defined.

Lemma mapping_size_witness :
  MeSHParser.buildMapping ascii_lower (node "Set" [flu; codeless; flu_again]) =
    ([Stdout MeSHParser.descriptor_error],
     Return [("flu", {| mesh_code := Some "C08.730";
                        entry_terms := ["grippe"] |})]) /\
  List.length [("flu", {| mesh_code := Some "C08.730";
                          entry_terms := ["grippe"] |})] <= 2.
Proof.
  split; [reflexivity|].
  exact (proj1 (proj2
           (@mapping_size ascii_lower (node "Set" [flu; codeless; flu_again])
              [Stdout MeSHParser.descriptor_error] _ eq_refl))).
Defined.

Lemma mapping_key_order_witness :
  MeSHParser.buildMapping ascii_lower (node "Set" [flu; measles; flu_again]) =
    ([], Return [("flu", {| mesh_code := Some "C08.730";
                            entry_terms := ["grippe"] |});
                 ("measles", {| mesh_code := Some "C01.925";
                                entry_terms :=
                                  ["measles"; "rubeola"; "morbilli"] |})]) /\
  exists ps,
    all_some (map (condensed ascii_lower)
                (filter selected
                   (children (node "Set" [flu; measles; flu_again]))))
      = Some ps /\
    ["flu"; "measles"] = first_occurrences [] (map fst ps).
Proof.
  split; [reflexivity|].
  exact (@mapping_key_order ascii_lower
           (node "Set" [flu; measles; flu_again]) [] _
           eq_refl).
Defined.

Lemma selected_entries_all_present_witness :
  MeSHParser.buildMapping ascii_lower (node "Set" [flu; measles; flu_again]) =
    ([], Return [("flu", {| mesh_code := Some "C08.730";
                            entry_terms := ["grippe"] |});
                 ("measles", {| mesh_code := Some "C01.925";
                                entry_terms :=
                                  ["measles"; "rubeola"; "morbilli"] |})]) /\
  exists name r,
    name_text flu = Some name /\
    dict_get [("flu", {| mesh_code := Some "C08.730";
                         entry_terms := ["grippe"] |});
              ("measles", {| mesh_code := Some "C01.925";
                             entry_terms :=
                               ["measles"; "rubeola"; "morbilli"] |})]
      (ascii_lower name) = Some r.
Proof.
  split; [reflexivity|].
  apply (@selected_entries_all_present ascii_lower
           (node "Set" [flu; measles; flu_again]) [] _ flu eq_refl).
  - now left.
  - reflexivity.
Defined.

Lemma first_tree_number_decides_witness :
  MeSHParser.isCondition marker_second = ([], Return false) /\
  MeSHParser.buildMapping ascii_lower (node "Set" [marker_second]) =
    ([], Return []).
Proof.
  split; [|reflexivity].
  exact (proj1
    (@first_tree_number_decides ascii_lower marker_second
       (node "TreeNumberList"
          [leaf "TreeNumber" "D02.455"; leaf "TreeNumber" "C26.733"])
       (leaf "TreeNumber" "D02.455") [leaf "TreeNumber" "C26.733"]
       "D"%char "02.455" eq_refl eq_refl eq_refl eq_refl)).
Defined.

Lemma entry_terms_count_witness :
  MeSHParser.parseCondition ascii_lower measles =
    ([], Return ("measles",
                 {| mesh_code := Some "C01.925";
                    entry_terms := ["measles"; "rubeola"; "morbilli"] |})) /\
  exists conceptList,
    find measles "ConceptList" = Some conceptList /\
    3 = list_sum (map count_terms (findall conceptList "Concept")).
Proof.
  split; [reflexivity|].
  exact (@entry_terms_count ascii_lower measles [] "measles"
           {| mesh_code := Some "C01.925";
              entry_terms := ["measles"; "rubeola"; "morbilli"] |} eq_refl).
Defined.

Lemma expand_columns_witness :
  dict_wf two_terms /\
  map alias (written_rows (fst (JSONMeSHAliasParser.expand two_terms))) =
    ["influenza"; "grippe"].
Proof.
  assert (Hwf : dict_wf two_terms).
  { unfold dict_wf, two_terms; simpl.
    repeat constructor; simpl; intuition discriminate. }
  split; [exact Hwf|].
  exact (proj1 (@expand_columns two_terms Hwf)).
Defined.

Lemma condense_then_expand_witness :
  MeSHParser.buildMapping ascii_lower flu_doc =
    ([], Return [("flu", {| mesh_code := Some "C01.001";
                            entry_terms := ["influenza"; "grippe"] |})]) /\
  JSONMeSHAliasParser.parseFile "MeSHConditions.json"
    (JSONMeSHAliasParser.Json
       [("flu", {| mesh_code := Some "C01.001";
                   entry_terms := ["influenza"; "grippe"] |})]) =
    ([WriteRow {| alias := "influenza"; term := "flu" |};
      WriteRow {| alias := "grippe"; term := "flu" |}], Return tt).
Proof.
  split; [reflexivity|].
  exact (proj1 (@condense_then_expand ascii_lower "MeSHConditions.json"
                  flu_doc [] _ eq_refl)).
Defined.
